(** * stata-mcp-server: the section editor and the selective executor

    A shallow embedding of [src/index.ts].  The three classes of the
    server ([FileManager], [DoFileEditor], [StataExecutor]) and the
    [edit_do_file] case of the tool handler are written as Rocq functions
    over an explicit machine state (file store, console, launched
    processes); JavaScript exceptions are an error result.

    Conventions of the embedding:
    - a JavaScript string is the Rocq [string] of its UTF-8 bytes.  Every
      delimiter the code looks for (newline, [*], [.do]) is ASCII, and
      UTF-8 is self-synchronising, so searching bytes and searching
      UTF-16 code units agree on well-formed text;
    - line numbers are integers ([Z]); the fractional and NaN values a
      JavaScript number can also take are outside the model;
    - an [Error] is represented by its message. *)

From Stdlib Require Import ZArith Lia Ascii String DecimalString.
From stdpp Require Import base strings list gmap sorting.

Local Open Scope string_scope.

(** ** JavaScript string primitives *)

Module Js.

Definition nl : string := String (ascii_of_nat 10) "".
Definition dquote : string := String (ascii_of_nat 34) "".

Definition is_nl (a : ascii) : bool := Ascii.eqb a (ascii_of_nat 10).

(** [s.split('\n')]: never empty, ["a\n"] gives [["a"; ""]]. *)
Fixpoint split_nl (s : string) : list string :=
  match s with
  | EmptyString => [EmptyString]
  | String a rest =>
      if is_nl a then EmptyString :: split_nl rest
      else match split_nl rest with
           | [] => [String a EmptyString]
           | h :: t => String a h :: t
           end
  end.

(** [xs.join(sep)]. *)
Fixpoint join (sep : string) (xs : list string) : string :=
  match xs with
  | [] => ""
  | [x] => x
  | x :: rest => x +:+ sep +:+ join sep rest
  end.

(** [s.startsWith(p)]. *)
Fixpoint startsWith (p s : string) : bool :=
  match p, s with
  | EmptyString, _ => true
  | String a p', String b s' => Ascii.eqb a b && startsWith p' s'
  | String _ _, EmptyString => false
  end.

(** [s.replace(pat, by)] with a string pattern: the first occurrence only. *)
Fixpoint replace_first (pat by_ s : string) : string :=
  if startsWith pat s then by_ +:+ String.substring (String.length pat) (String.length s) s
  else match s with
       | EmptyString => EmptyString
       | String a rest => String a (replace_first pat by_ rest)
       end.

(** [s.replace(/[:.]/g, '-')]. *)
Fixpoint dash_colons_dots (s : string) : string :=
  match s with
  | EmptyString => EmptyString
  | String a rest =>
      String (if Ascii.eqb a ":" || Ascii.eqb a "." then "-"%char else a)
             (dash_colons_dots rest)
  end.

(** ['='.repeat(n)]. *)
Fixpoint repeat_str (s : string) (n : nat) : string :=
  match n with
  | O => ""
  | S n' => s +:+ repeat_str s n'
  end.

(** Template interpolation of an integer. *)
Definition of_Z (z : Z) : string := NilZero.string_of_int (Z.to_int z).

(** Truthiness of a string ([''] is falsy) and of an optional one. *)
Definition truthy (s : string) : bool := negb (String.eqb s "").
Definition truthy_opt (o : option string) : bool :=
  match o with Some s => truthy s | None => false end.

(** [a || b] on strings. *)
Definition or_else (a b : string) : string := if truthy a then a else b.

Definition of_bytes (ns : list nat) : string :=
  string_of_list_ascii (map ascii_of_nat ns).

(** The code points [\s] accepts (ECMAScript WhiteSpace and
    LineTerminator), each in UTF-8: TAB LF VT FF CR SP, U+00A0, U+1680,
    U+2000 to U+200A, U+2028, U+2029, U+202F, U+205F, U+3000, U+FEFF. *)
Definition whitespace : list string :=
  map of_bytes
    (app (map (fun n => [n]) [9; 10; 11; 12; 13; 32])
    (app [[194; 160]; [225; 154; 128]]
    (app (map (fun n => [226; 128; n]) (seq 128 11))
         [[226; 128; 168]; [226; 128; 169]; [226; 128; 175];
          [226; 129; 159]; [227; 128; 128]; [239; 187; 191]])))%nat.

(** [xs.findIndex(p)], [None] standing for [-1]. *)
Fixpoint findIndex {A} (p : A -> bool) (xs : list A) : option nat :=
  match xs with
  | [] => None
  | x :: rest => if p x then Some O else S <$> findIndex p rest
  end.

(** [xs.splice(i, 0, ...ins)]: the array after the insertion. *)
Definition splice_insert {A} (xs : list A) (i : nat) (ins : list A) : list A :=
  app (take i xs) (app ins (drop i xs)).

(** [xs.slice(b, e)] for integer bounds, negative ones counting from the end. *)
Definition slice {A} (xs : list A) (b e : Z) : list A :=
  let len := Z.of_nat (length xs) in
  let norm k := if (k <? 0)%Z then Z.max (len + k) 0 else Z.min k len in
  let b' := norm b in
  let e' := norm e in
  take (Z.to_nat (e' - b')) (drop (Z.to_nat b') xs).

End Js.

(** ** Regular expressions

    The patterns of the source use literals, [\s], [*], [+], alternation,
    the [^] anchor and the [i] flag.  [test] decides whether some
    substring (or prefix, under [^]) belongs to the language, which is
    what [RegExp.prototype.test] returns for such patterns. *)

Module Re.

Inductive regex : Type :=
| Void
| Eps
| Chr (a : ascii)
| Seq (r1 r2 : regex)
| Alt (r1 r2 : regex)
| Star (r : regex).

Fixpoint lit (s : string) : regex :=
  match s with
  | EmptyString => Eps
  | String a rest => Seq (Chr a) (lit rest)
  end.

Definition plus (r : regex) : regex := Seq r (Star r).

Fixpoint alts (rs : list regex) : regex :=
  match rs with
  | [] => Void
  | r :: rest => Alt r (alts rest)
  end.

(** [\s] *)
Definition space : regex := alts (map lit Js.whitespace).

(** [w1\s+w2\s+...]: literal words separated by [\s+]. *)
Fixpoint phrase (words : list string) : regex :=
  match words with
  | [] => Void
  | w :: more =>
      match more with
      | [] => lit w
      | _ :: _ => Seq (lit w) (Seq (plus space) (phrase more))
      end
  end.

(** Canonicalisation under the [i] flag (no [u] flag): upper-casing,
    which never maps a non-ASCII code unit to an ASCII one. *)
Definition upper (a : ascii) : ascii :=
  let n := nat_of_ascii a in
  if (97 <=? n)%nat && (n <=? 122)%nat then ascii_of_nat (n - 32) else a.

Definition is_letter (a : ascii) : bool :=
  let n := nat_of_ascii a in
  ((65 <=? n)%nat && (n <=? 90)%nat) || ((97 <=? n)%nat && (n <=? 122)%nat).

Fixpoint no_letter (s : string) : bool :=
  match s with
  | EmptyString => true
  | String a rest => negb (is_letter a) && no_letter rest
  end.

(** Every value of a byte. *)
Definition all_ascii : list ascii := map ascii_of_nat (seq 0 256).

Definition chr_eq (ignoreCase : bool) (a b : ascii) : bool :=
  if ignoreCase then Ascii.eqb (upper a) (upper b) else Ascii.eqb a b.

Fixpoint nullable (r : regex) : bool :=
  match r with
  | Void => false
  | Eps => true
  | Chr _ => false
  | Seq r1 r2 => nullable r1 && nullable r2
  | Alt r1 r2 => nullable r1 || nullable r2
  | Star _ => true
  end.

Fixpoint deriv (ic : bool) (a : ascii) (r : regex) : regex :=
  match r with
  | Void => Void
  | Eps => Void
  | Chr b => if chr_eq ic b a then Eps else Void
  | Seq r1 r2 =>
      if nullable r1 then Alt (Seq (deriv ic a r1) r2) (deriv ic a r2)
      else Seq (deriv ic a r1) r2
  | Alt r1 r2 => Alt (deriv ic a r1) (deriv ic a r2)
  | Star r1 => Seq (deriv ic a r1) (Star r1)
  end.

(** Some prefix of [s] is in the language of [r]. *)
Fixpoint prefix_match (ic : bool) (r : regex) (s : string) : bool :=
  nullable r ||
  match s with
  | EmptyString => false
  | String a rest => prefix_match ic (deriv ic a r) rest
  end.

(** Some substring of [s] is in the language of [r]. *)
Fixpoint search (ic : bool) (r : regex) (s : string) : bool :=
  prefix_match ic r s ||
  match s with
  | EmptyString => false
  | String _ rest => search ic r rest
  end.

Record pattern : Type := Pattern {
  at_start : bool;      (* the pattern begins with [^] *)
  body : regex;
  ignoreCase : bool     (* the [i] flag *)
}.

Definition test (p : pattern) (s : string) : bool :=
  if at_start p then prefix_match (ignoreCase p) (body p) s
  else search (ignoreCase p) (body p) s.

(** The language of a regular expression. *)
Inductive matches (ic : bool) : regex -> string -> Prop :=
| m_eps : matches ic Eps ""
| m_chr a b : chr_eq ic a b = true -> matches ic (Chr a) (String b "")
| m_seq r1 r2 u v : matches ic r1 u -> matches ic r2 v -> matches ic (Seq r1 r2) (u +:+ v)
| m_alt_l r1 r2 u : matches ic r1 u -> matches ic (Alt r1 r2) u
| m_alt_r r1 r2 u : matches ic r2 u -> matches ic (Alt r1 r2) u
| m_star_nil r : matches ic (Star r) ""
| m_star_cons r u v : matches ic r u -> matches ic (Star r) v -> matches ic (Star r) (u +:+ v).

End Re.

(** ** Machine state and effects *)

(** How a launch of the interpreter ends: the [error] event of the child
    process, or its [close] event with the exit code ([None] for [null],
    a process ended by a signal), what it wrote to its two streams, and
    the file store it leaves behind. *)
Inductive proc_outcome : Type :=
| SpawnError (msg : string)
| Closed (code : option Z) (stdout stderr : string) (store : gmap string string).

(** What the code takes from its host: [os], [process.env], the clock,
    the [path] module and the external interpreter. *)
Record Host : Type := {
  platform : string;
  env_STATA_PATH : option string;
  env_STATA_WORKSPACE : option string;
  process_cwd : string;
  now_iso : string;
  now_locale : string;
  path_isAbsolute : string -> bool;
  path_join : string -> string -> string;
  path_basename : string -> string;
  path_basename_ext : string -> string -> string;
  path_dirname : string -> string;
  interpreter : string -> list string -> string -> gmap string string -> proc_outcome
}.

Record world : Type := World {
  files : gmap string string;          (* path to content *)
  undeletable : gset string;           (* paths whose [unlink] the system refuses *)
  console : list string;               (* lines written by [console.error] *)
  launched : list (string * list string)  (* [spawn] calls: executable, arguments *)
}.

Inductive result (A : Type) : Type :=
| Ok (a : A)
| Throw (msg : string).
Arguments Ok {A} a.
Arguments Throw {A} msg.

Definition M (A : Type) : Type := world -> result A * world.

Definition ret {A} (a : A) : M A := fun w => (Ok a, w).
Definition throw {A} (msg : string) : M A := fun w => (Throw msg, w).
Definition bind {A B} (m : M A) (k : A -> M B) : M B :=
  fun w => match m w with
           | (Ok a, w') => k a w'
           | (Throw e, w') => (Throw e, w')
           end.

(** [try { m } catch (error) { h error }] *)
Definition try_catch {A} (m : M A) (h : string -> M A) : M A :=
  fun w => match m w with
           | (Ok a, w') => (Ok a, w')
           | (Throw e, w') => h e w'
           end.

(** [try { m } finally { f }]: [f] always runs; an error of [f] replaces
    the outcome of [m]. *)
Definition try_finally {A} (m : M A) (f : M unit) : M A :=
  fun w => let '(r, w1) := m w in
           match f w1 with
           | (Ok _, w2) => (r, w2)
           | (Throw e, w2) => (Throw e, w2)
           end.

Notation "'let*' x ':=' m 'in' k" := (bind m (fun x => k))
  (at level 10, x name, m at level 100, k at level 200).
Notation "m ';;' k" := (bind m (fun _ => k))
  (at level 100, k at level 200, right associativity).

Definition set_files (fs : gmap string string) (w : world) : world :=
  {| files := fs; undeletable := undeletable w; console := console w; launched := launched w |}.

(** The [fs/promises] calls the code makes.  Directories are not modelled:
    writing and copying to a path always succeed. *)
Module Fs.

Definition readFile (p : string) : M string :=
  fun w => match files w !! p with
           | Some c => (Ok c, w)
           | None => (Throw ("ENOENT: no such file or directory, open '" +:+ p +:+ "'"), w)
           end.

Definition writeFile (p content : string) : M unit :=
  fun w => (Ok tt, set_files (<[p := content]> (files w)) w).

Definition copyFile (src dst : string) : M unit :=
  fun w => match files w !! src with
           | Some c => (Ok tt, set_files (<[dst := c]> (files w)) w)
           | None => (Throw ("ENOENT: no such file or directory, copyfile '"
                             +:+ src +:+ "' -> '" +:+ dst +:+ "'"), w)
           end.

Definition unlink (p : string) : M unit :=
  fun w => match files w !! p with
           | None => (Throw ("ENOENT: no such file or directory, unlink '" +:+ p +:+ "'"), w)
           | Some _ =>
               if decide (p ∈ undeletable w)
               then (Throw ("EPERM: operation not permitted, unlink '" +:+ p +:+ "'"), w)
               else (Ok tt, set_files (delete p (files w)) w)
           end.

End Fs.

Definition console_error (line : string) : M unit :=
  fun w => (Ok tt, {| files := files w; undeletable := undeletable w;
                      console := console w ++ [line]; launched := launched w |}).

Section Server.

Variable H : Host.

(** [spawn(exe, args, { cwd })] followed to the first of the child's
    [error] and [close] events. *)
Definition spawn (exe : string) (args : list string) (dir : string)
  : world -> proc_outcome * world :=
  fun w =>
    let w' := {| files := files w; undeletable := undeletable w;
                 console := console w; launched := launched w ++ [(exe, args)] |} in
    match interpreter H exe args dir (files w) with
    | SpawnError msg => (SpawnError msg, w')
    | Closed code out err store => (Closed code out err store, set_files store w')
    end.

(** *** class FileManager *)

Definition workspaceDir : string :=
  match env_STATA_WORKSPACE H with
  | Some d => if Js.truthy d then d else process_cwd H
  | None => process_cwd H
  end.

Definition backupsDir : string := path_join H workspaceDir ".stata-backups".

Definition resolvePath (filePath : string) : string :=
  if path_isAbsolute H filePath then filePath
  else path_join H workspaceDir filePath.

Definition FileManager_readFile (filePath : string) : M string :=
  Fs.readFile (resolvePath filePath).

Definition FileManager_writeFile (filePath content : string) : M unit :=
  Fs.writeFile (resolvePath filePath) content.

Definition backupPathOf (filePath : string) : string :=
  let resolvedPath := resolvePath filePath in
  let timestamp := Js.dash_colons_dots (now_iso H) in
  let fileName := path_basename H resolvedPath in
  path_join H backupsDir (fileName +:+ "." +:+ timestamp +:+ ".bak").

Definition createBackup (filePath : string) : M string :=
  let backupPath := backupPathOf filePath in
  Fs.copyFile (resolvePath filePath) backupPath ;;
  ret backupPath.

(** *** class DoFileEditor *)

(** [type SectionName]: the six registered names, and the string each
    one is at run time. *)
Inductive SectionName : Type :=
| sec_setup | sec_data | sec_preprocessing | sec_descriptive | sec_analysis | sec_output.

Definition section_key (sn : SectionName) : string :=
  match sn with
  | sec_setup => "setup"
  | sec_data => "data"
  | sec_preprocessing => "preprocessing"
  | sec_descriptive => "descriptive"
  | sec_analysis => "analysis"
  | sec_output => "output"
  end.

Definition marker (text : string) : Re.pattern :=
  Re.Pattern false (Re.Seq (Re.Chr "*") (Re.Seq (Re.Star Re.space) (Re.lit text))) true.

(** The [sectionMarkers] table.  In [/\*\s*변수 생성|전처리/i] the
    alternation splits the whole pattern. *)
Definition sectionMarkers : list (string * Re.pattern) :=
  [ ("setup", marker "초기 설정");
    ("data", marker "데이터 로드");
    ("preprocessing",
      Re.Pattern false
        (Re.Alt (Re.Seq (Re.Chr "*") (Re.Seq (Re.Star Re.space) (Re.lit "변수 생성")))
                (Re.lit "전처리"))
        true);
    ("descriptive", marker "기술통계");
    ("analysis", marker "주요 분석");
    ("output", marker "결과 저장") ].

(** [sectionMarkers[sectionName]]; keys inherited from [Object.prototype]
    are not modelled. *)
Fixpoint assoc {A} (key : string) (table : list (string * A)) : option A :=
  match table with
  | [] => None
  | (k, v) :: rest => if String.eqb k key then Some v else assoc key rest
  end.

(** The [while] loop of [insertSection]: from index [i], whose remaining
    lines are [rest], advance while the line does not start with [*]. *)
Fixpoint advance (rest : list string) (i : nat) : nat :=
  match rest with
  | [] => i
  | line :: rest' => if negb (Js.startsWith "*" line) then advance rest' (S i) else i
  end.

Definition insertIndexOf (lines : list string) (markerIndex : nat)
           (position : string) : nat :=
  if String.eqb position "after"
  then advance (drop (markerIndex + 1) lines) (markerIndex + 1)
  else markerIndex.

(** [position] is [None] when the argument is [undefined], which selects
    the default ['after']. *)
Definition insertSection (filePath sectionName content : string)
           (position : option string) : M unit :=
  let position := default "after" position in
  let* currentContent := FileManager_readFile filePath in
  let lines := Js.split_nl currentContent in
  match assoc sectionName sectionMarkers with
  | None => throw ("알 수 없는 섹션: " +:+ sectionName)
  | Some mk =>
      match Js.findIndex (Re.test mk) lines with
      | None => throw ("섹션을 찾을 수 없습니다: " +:+ sectionName)
      | Some markerIndex =>
          let insertIndex := insertIndexOf lines markerIndex position in
          let lines' := Js.splice_insert lines insertIndex [""; content; ""] in
          FileManager_writeFile filePath (Js.join Js.nl lines')
      end
  end.

Definition addVariable (filePath varName definition : string)
           (label : option string) : M unit :=
  let varCode :=
    "* 변수 생성: " +:+ varName +:+ Js.nl +:+ definition +:+ Js.nl +:+
    (match label with
     | Some l => if Js.truthy l
                 then "label variable " +:+ varName +:+ " " +:+ Js.dquote +:+ l +:+ Js.dquote
                 else ""
     | None => ""
     end) in
  insertSection filePath "preprocessing" varCode None.

Definition addAnalysis (filePath analysisType specification : string) : M unit :=
  let analysisCode := "* " +:+ analysisType +:+ " 분석" +:+ Js.nl +:+ specification in
  insertSection filePath "analysis" analysisCode None.

(** *** class StataExecutor *)

Record StataExecutionResult : Type := {
  success : bool;
  output : string;
  logPath : string
}.

Definition findStataPath : string :=
  if String.eqb (platform H) "darwin"
  then "/Applications/Stata/StataBE.app/Contents/MacOS/StataBE"
  else if String.eqb (platform H) "win32"
  then "C:\Program Files\Stata18\StataMP-64.exe"
  else "/usr/local/stata/stata".

Definition stataPath : string :=
  match env_STATA_PATH H with
  | Some p => if Js.truthy p then p else findStataPath
  | None => findStataPath
  end.

Definition code_is_zero (code : option Z) : bool :=
  match code with
  | Some c => (c =? 0)%Z
  | None => false
  end.

(** [doFilePath.replace('.do', '.log')] *)
Definition logPathOf (doFilePath : string) : string :=
  Js.replace_first ".do" ".log" doFilePath.

Definition batchArgs (doFilePath : string) : list string :=
  if String.eqb (platform H) "darwin"
  then ["-b"; "do"; doFilePath]
  else ["/e"; "do"; doFilePath].

Definition executeDoFile (doFilePath : string) : M StataExecutionResult :=
  let logPath := logPathOf doFilePath in
  let args := batchArgs doFilePath in
  fun w =>
    match spawn stataPath args (path_dirname H doFilePath) w with
    | (SpawnError msg, w') => (Throw ("Stata 실행 실패: " +:+ msg), w')
    | (Closed code out err _, w') =>
        match Fs.readFile logPath w' with
        | (Ok logContent, w'') =>
            (Ok {| success := code_is_zero code;
                   output := Js.or_else logContent (Js.or_else out err);
                   logPath := logPath |}, w'')
        | (Throw e, w'') =>
            (Ok {| success := false;
                   output := Js.or_else err ("실행 오류: " +:+ e);
                   logPath := logPath |}, w'')
        end
    end.

(** [/^\s*(clear\s+all|set\s+more\s+off|capture\s+log\s+close)/i] *)
Definition setupPattern : Re.pattern :=
  Re.Pattern true
    (Re.Seq (Re.Star Re.space)
       (Re.Alt (Re.phrase ["clear"; "all"])
       (Re.Alt (Re.phrase ["set"; "more"; "off"])
               (Re.phrase ["capture"; "log"; "close"]))))
    true.

Definition header (originalFilePath : string) (startLine endLine : Z) : string :=
  "/" +:+ Js.repeat_str "*" 79 +:+ Js.nl +:+
  "* 선택된 라인 실행" +:+ Js.nl +:+
  "* 원본 파일: " +:+ originalFilePath +:+ Js.nl +:+
  "* 실행 라인: " +:+ Js.of_Z startLine +:+ "-" +:+ Js.of_Z endLine +:+ Js.nl +:+
  "* 생성 시간: " +:+ now_locale H +:+ Js.nl +:+
  Js.repeat_str "*" 79 +:+ "/" +:+ Js.nl +:+
  Js.nl.

Definition hasSetup (selectedLines : list string) : bool :=
  existsb (Re.test setupPattern) selectedLines.

Definition setupBlock : string :=
  "* 기본 설정" +:+ Js.nl +:+ "set more off" +:+ Js.nl +:+ "capture log close" +:+ Js.nl +:+ Js.nl.

Definition setupCode (selectedLines : list string) : string :=
  if negb (hasSetup selectedLines) then setupBlock else "".

(** [selectedLines.map((line, index) => ...)]. *)
Definition processedLine (startLine : Z) (index : nat) (line : string) : string :=
  let lineNumber := (startLine + Z.of_nat index)%Z in
  "* Line " +:+ Js.of_Z lineNumber +:+ Js.nl +:+ line.

Definition processedLines (selectedLines : list string) (startLine : Z) : string :=
  Js.join Js.nl (imap (processedLine startLine) selectedLines).

Definition trailer : string :=
  Js.nl +:+ Js.nl +:+ "* 선택된 라인 실행 완료" +:+ Js.nl +:+ "exit" +:+ Js.nl.

Definition prepareExecutableCode (selectedLines : list string) (originalFilePath : string)
           (startLine endLine : Z) : string :=
  header originalFilePath startLine endLine +:+ setupCode selectedLines +:+
  processedLines selectedLines startLine +:+ trailer.

Definition tempFilePathOf (filePath : string) (startLine endLine : Z) : string :=
  let timestamp := Js.dash_colons_dots (now_iso H) in
  let tempFileName :=
    "temp_" +:+ path_basename_ext H filePath ".do" +:+ "_lines_" +:+ Js.of_Z startLine +:+
    "_" +:+ Js.of_Z endLine +:+ "_" +:+ timestamp +:+ ".do" in
  path_join H (path_dirname H filePath) tempFileName.

(** The body of the [finally] block. *)
Definition cleanup (tempFilePath : string) : M unit :=
  try_catch
    (Fs.unlink tempFilePath ;;
     let tempLogPath := Js.replace_first ".do" ".log" tempFilePath in
     try_catch (Fs.unlink tempLogPath) (fun _ => ret tt))
    (fun error => console_error ("임시 파일 정리 실패: " +:+ error)).

Definition enhance (filePath : string) (startLine endLine : Z)
           (result : StataExecutionResult) : StataExecutionResult :=
  let enhancedOutput :=
    "선택된 라인 실행 결과:" +:+ Js.nl +:+ "파일: " +:+ filePath +:+ Js.nl +:+
    "라인: " +:+ Js.of_Z startLine +:+ "-" +:+ Js.of_Z endLine +:+ Js.nl +:+ Js.nl +:+
    output result in
  {| success := success result; output := enhancedOutput; logPath := logPath result |}.

Definition badRangeMessage (startLine endLine : Z) (n : nat) : string :=
  "잘못된 라인 번호: " +:+ Js.of_Z startLine +:+ "-" +:+ Js.of_Z endLine +:+
  " (파일은 1-" +:+ Js.of_Z (Z.of_nat n) +:+ " 라인)".

Definition reversedRangeMessage (startLine endLine : Z) : string :=
  "시작 라인(" +:+ Js.of_Z startLine +:+ ")이 끝 라인(" +:+ Js.of_Z endLine +:+ ")보다 큽니다".

Definition executeSelectedLines (filePath : string) (startLine endLine : Z)
  : M StataExecutionResult :=
  try_catch
    (let* content := Fs.readFile filePath in
     let lines := Js.split_nl content in
     let n := Z.of_nat (length lines) in
     if (startLine <? 1)%Z || (endLine <? 1)%Z || (startLine >? n)%Z || (endLine >? n)%Z
     then throw (badRangeMessage startLine endLine (length lines))
     else if (startLine >? endLine)%Z
     then throw (reversedRangeMessage startLine endLine)
     else
       let selectedLines := Js.slice lines (startLine - 1) endLine in
       let tempFilePath := tempFilePathOf filePath startLine endLine in
       let executableContent :=
         prepareExecutableCode selectedLines filePath startLine endLine in
       Fs.writeFile tempFilePath executableContent ;;
       try_finally
         (let* result := executeDoFile tempFilePath in
          ret (enhance filePath startLine endLine result))
         (cleanup tempFilePath))
    (fun error => throw ("선택된 라인 실행 실패: " +:+ error)).

(** Two observation points of a call of [executeSelectedLines] that has
    passed validation: how the launch of the interpreter on the ephemeral
    script ends, and the file store when the [finally] block is entered. *)
Definition runOfSelection (w : world) (filePath content : string)
           (startLine endLine : Z) : proc_outcome :=
  let tempFilePath := tempFilePathOf filePath startLine endLine in
  let selectedLines := Js.slice (Js.split_nl content) (startLine - 1) endLine in
  interpreter H stataPath (batchArgs tempFilePath) (path_dirname H tempFilePath)
    (<[tempFilePath := prepareExecutableCode selectedLines filePath startLine endLine]>
       (files w)).

Definition storeAtCleanup (w : world) (filePath content : string)
           (startLine endLine : Z) : gmap string string :=
  match runOfSelection w filePath content startLine endLine with
  | SpawnError _ =>
      let tempFilePath := tempFilePathOf filePath startLine endLine in
      let selectedLines := Js.slice (Js.split_nl content) (startLine - 1) endLine in
      <[tempFilePath := prepareExecutableCode selectedLines filePath startLine endLine]>
        (files w)
  | Closed _ _ _ store => store
  end.

(** *** The tool handler, case [edit_do_file] *)

Record EditParams : Type := {
  p_name : option string;
  p_definition : option string;
  p_label : option string;
  p_type : option string;
  p_specification : option string;
  p_section : option string;
  p_content : option string;
  p_position : option string
}.

Record EditArgs : Type := {
  file_path : option string;
  operation : option string;
  params : option EditParams
}.

(** The [switch (operation)]: three cases and no [default]. *)
Definition editSwitch (filePath operation : string) (params : EditParams) : M unit :=
  if String.eqb operation "add_variable" then
    if negb (Js.truthy_opt (p_name params)) || negb (Js.truthy_opt (p_definition params))
    then throw "변수명과 정의가 필요합니다"
    else addVariable filePath (default "" (p_name params))
                     (default "" (p_definition params)) (p_label params)
  else if String.eqb operation "add_analysis" then
    if negb (Js.truthy_opt (p_type params)) || negb (Js.truthy_opt (p_specification params))
    then throw "분석 유형과 명세가 필요합니다"
    else addAnalysis filePath (default "" (p_type params))
                     (default "" (p_specification params))
  else if String.eqb operation "insert_section" then
    if negb (Js.truthy_opt (p_section params)) || negb (Js.truthy_opt (p_content params))
    then throw "섹션명과 내용이 필요합니다"
    else insertSection filePath (default "" (p_section params))
                       (default "" (p_content params)) (p_position params)
  else ret tt.

Definition modifiedMessage (updatedContent : string) : string :=
  "파일이 수정되었습니다." +:+ Js.nl +:+ Js.nl +:+ "수정된 내용:" +:+ Js.nl +:+
  Js.repeat_str "=" 80 +:+ Js.nl +:+ updatedContent.

Definition edit_do_file (args : option EditArgs) : M string :=
  match args with
  | None => throw "매개변수가 필요합니다"
  | Some args =>
      match file_path args, operation args, params args with
      | Some filePath, Some operation, Some params =>
          if negb (Js.truthy filePath) || negb (Js.truthy operation)
          then throw "file_path, operation, params가 필요합니다"
          else
            createBackup filePath ;;
            editSwitch filePath operation params ;;
            let* updatedContent := FileManager_readFile filePath in
            ret (modifiedMessage updatedContent)
      | _, _, _ => throw "file_path, operation, params가 필요합니다"
      end
  end.

(** The handler's outer [try]/[catch]: every error becomes a text reply. *)
Definition callTool_edit_do_file (args : option EditArgs) : M string :=
  try_catch (edit_do_file args) (fun error => ret ("오류 발생: " +:+ error)).

End Server.


(** ** A concrete host

    POSIX paths in normal form (no [.] or [..] segment, no trailing
    slash), a fixed clock, and interpreters with a scripted behaviour;
    used to run the functions on concrete inputs. *)

Module Posix.

Definition isAbsolute (p : string) : bool := Js.startsWith "/" p.

Definition join (a b : string) : string := a +:+ "/" +:+ b.

Fixpoint basename_from (s cur : string) : string :=
  match s with
  | EmptyString => cur
  | String a rest =>
      if Ascii.eqb a "/" then basename_from rest ""
      else basename_from rest (cur +:+ String a "")
  end.

Definition basename (p : string) : string := basename_from p "".

Definition dirname (p : string) : string :=
  String.substring 0 (String.length p - String.length (basename p) - 1) p.

Definition basename_ext (p ext : string) : string :=
  let b := basename p in
  let n := (String.length b - String.length ext)%nat in
  if String.eqb (String.substring n (String.length ext) b) ext
  then String.substring 0 n b else b.

(** The do-file an interpreter is asked to run: the third argument. *)
Definition script_of (args : list string) : string := default "" (args !! 2%nat).

(** Exits with [code] after writing [log] next to the script. *)
Definition writes_log (code : Z) (log : string)
  : string -> list string -> string -> gmap string string -> proc_outcome :=
  fun _ args _ store =>
    Closed (Some code) "" ""
           (<[Js.replace_first ".do" ".log" (script_of args) := log]> store).

(** Exits with [code], printing to its streams, and writes no log. *)
Definition writes_nothing (code : Z) (out err : string)
  : string -> list string -> string -> gmap string string -> proc_outcome :=
  fun _ _ _ store => Closed (Some code) out err store.

(** The executable cannot be launched. *)
Definition unlaunchable
  : string -> list string -> string -> gmap string string -> proc_outcome :=
  fun exe _ _ _ => SpawnError ("spawn " +:+ exe +:+ " ENOENT").

Definition host (interp : string -> list string -> string -> gmap string string -> proc_outcome)
  : Host :=
  {| platform := "darwin";
     env_STATA_PATH := None;
     env_STATA_WORKSPACE := Some "/w";
     process_cwd := "/";
     now_iso := "2024-01-02T03:04:05.678Z";
     now_locale := "2024. 1. 2. 오후 12:04:05";
     path_isAbsolute := isAbsolute;
     path_join := join;
     path_basename := basename;
     path_basename_ext := basename_ext;
     path_dirname := dirname;
     interpreter := interp |}.

Definition disk (fs : list (string * string)) : world :=
  {| files := list_to_map fs; undeletable := ∅; console := []; launched := [] |}.

End Posix.

(** ** The specification's wording

    Definitions written from the sentences of the specification, to be
    compared with the functions above. *)

Module Spec.


(** "scan forward from index+1 while lines begin with the comment marker
    character, advancing the insertion point past that run". *)
Fixpoint past_comment_run (rest : list string) (i : nat) : nat :=
  match rest with
  | [] => i
  | line :: rest' => if Js.startsWith "*" line then past_comment_run rest' (S i) else i
  end.

Definition insert_after (lines : list string) (markerIndex : nat) (content : string)
  : list string :=
  Js.splice_insert lines
    (past_comment_run (drop (markerIndex + 1) lines) (markerIndex + 1))
    [""; content; ""].

(** "case-insensitive match": the same text up to the case of letters. *)
Fixpoint same_ignoring_case (a b : string) : bool :=
  match a, b with
  | EmptyString, EmptyString => true
  | String x a', String y b' => Ascii.eqb (Re.upper x) (Re.upper y) && same_ignoring_case a' b'
  | _, _ => false
  end.

(** "optional whitespace": a possibly empty run of whitespace characters. *)
Inductive blank : string -> Prop :=
| blank_nil : blank ""
| blank_cons t s : t ∈ Js.whitespace -> blank s -> blank (t +:+ s).





End Spec.

(** ** The rest of the server

    The remaining methods of [FileManager] and [DoFileEditor] that work on
    file contents, and the other cases of the tool handler. *)

Module Str.

(** [s.includes(pat)] *)
Fixpoint includes (pat s : string) : bool :=
  Js.startsWith pat s ||
  match s with
  | EmptyString => false
  | String _ rest => includes pat rest
  end.

(** No character of [s] is [c]. *)
Fixpoint lacks (c : ascii) (s : string) : bool :=
  match s with
  | EmptyString => true
  | String a rest => negb (Ascii.eqb a c) && lacks c rest
  end.

End Str.

Section Tools.

Variable H : Host.

(** [FileManager.fileExists]: [fs.access] succeeds. *)
Definition fileExists (filePath : string) : M bool :=
  fun w => (Ok match files w !! filePath with Some _ => true | None => false end, w).

(** The lines of the template of [generateDoFile]; [today] is the reading
    [new Date().toLocaleDateString('ko-KR')] of the clock. *)
Definition templateLines (today description outputPath : string) : list string :=
  [ "/" +:+ Js.repeat_str "*" 79;
    "* 프로젝트: " +:+ description;
    "* 작성일: " +:+ today;
    "* 작성자: Stata MCP Server (LLM Generated)";
    "* 목적: " +:+ description;
    Js.repeat_str "*" 79 +:+ "/";
    "";
    "* 초기 설정";
    "clear all";
    "set more off";
    "capture log close";
    "log using " +:+ Js.dquote +:+ path_basename_ext H outputPath ".do" +:+ ".log" +:+ Js.dquote +:+ ", replace";
    "";
    "* 작업 디렉토리 설정";
    "cd " +:+ Js.dquote +:+ path_dirname H outputPath +:+ Js.dquote;
    "";
    "* 데이터 로드";
    "* use " +:+ Js.dquote +:+ "your_data.dta" +:+ Js.dquote +:+ ", clear";
    "";
    "* 데이터 확인";
    "describe";
    "summarize";
    "";
    "* 변수 생성 및 전처리";
    "* generate new_var = .";
    "* replace new_var = .";
    "";
    "* 기술통계";
    "* tabulate var1";
    "* summarize var2, detail";
    "";
    "* 주요 분석";
    "* regress y x1 x2 x3";
    "";
    "* 결과 저장";
    "* outreg2 using " +:+ Js.dquote +:+ "results.doc" +:+ Js.dquote +:+ ", replace";
    "";
    "* 그래프 생성";
    "* graph twoway scatter y x";
    "* graph export " +:+ Js.dquote +:+ "figure1.png" +:+ Js.dquote +:+ ", replace";
    "";
    "log close";
    "exit" ].

Definition template (today description outputPath : string) : string :=
  Js.join Js.nl (templateLines today description outputPath) +:+ Js.nl.

Definition generateDoFile (today description outputPath : string) : M string :=
  FileManager_writeFile H outputPath (template today description outputPath) ;;
  ret outputPath.

(** *** The tool handler *)

(** The [arguments] object of a request: each field is [None] when it is
    absent (or, for the two line numbers, not a number). *)
Record ToolArgs : Type := {
  a_directory : option string;
  a_file_path : option string;
  a_content : option string;
  a_create_backup : option bool;
  a_operation : option string;
  a_params : option EditParams;
  a_description : option string;
  a_output_path : option string;
  a_start_line : option Z;
  a_end_line : option Z
}.

(** [args?.field] *)
Definition field {A} (args : option ToolArgs) (get : ToolArgs -> option A) : option A :=
  match args with
  | Some a => get a
  | None => None
  end.

Definition rule : string := Js.repeat_str "=" 80.

Definition read_do_file (args : option ToolArgs) : M string :=
  match field args a_file_path with
  | Some filePath =>
      if negb (Js.truthy filePath) then throw "file_path가 필요합니다"
      else
        let* content := FileManager_readFile H filePath in
        let resolvedPath := resolvePath H filePath in
        ret ("파일: " +:+ resolvedPath +:+ Js.nl +:+ rule +:+ Js.nl +:+ content)
  | None => throw "file_path가 필요합니다"
  end.

(** The [console.log] of the backup path goes to the standard output, which
    the machine state does not record. *)
Definition write_do_file (args : option ToolArgs) : M string :=
  let createBackupFlag := default true (field args a_create_backup) in
  match field args a_file_path, field args a_content with
  | Some filePath, Some content =>
      if negb (Js.truthy filePath) || negb (Js.truthy content)
      then throw "file_path와 content가 필요합니다"
      else
        let resolvedPath := resolvePath H filePath in
        (if createBackupFlag
         then let* present := fileExists resolvedPath in
              if present then (createBackup H filePath ;; ret tt) else ret tt
         else ret tt) ;;
        FileManager_writeFile H filePath content ;;
        ret ("파일이 저장되었습니다: " +:+ resolvedPath)
  | _, _ => throw "file_path와 content가 필요합니다"
  end.

Definition generate_do_template (today : string) (args : option ToolArgs) : M string :=
  match field args a_description, field args a_output_path with
  | Some description, Some outputPath =>
      if negb (Js.truthy description) || negb (Js.truthy outputPath)
      then throw "description과 output_path가 필요합니다"
      else
        let* createdPath := generateDoFile today description outputPath in
        let* content := FileManager_readFile H createdPath in
        ret ("Do 파일 템플릿이 생성되었습니다: " +:+ createdPath +:+ Js.nl +:+ Js.nl +:+
             "내용:" +:+ Js.nl +:+ rule +:+ Js.nl +:+ content)
  | _, _ => throw "description과 output_path가 필요합니다"
  end.

Definition runReport (title : string) (result : StataExecutionResult) : string :=
  title +:+ (if success result then "성공" else "실패") +:+ Js.nl +:+
  "로그 파일: " +:+ logPath result +:+ Js.nl +:+ Js.nl +:+
  "출력:" +:+ Js.nl +:+ rule +:+ Js.nl +:+ output result.

Definition run_do_file (args : option ToolArgs) : M string :=
  match field args a_file_path with
  | Some filePath =>
      if negb (Js.truthy filePath) then throw "file_path가 필요합니다"
      else
        let resolvedPath := resolvePath H filePath in
        let* result := executeDoFile H resolvedPath in
        ret (runReport "실행 " result)
  | None => throw "file_path가 필요합니다"
  end.

Definition run_do_selected_lines (args : option ToolArgs) : M string :=
  match field args a_file_path with
  | Some filePath =>
      if negb (Js.truthy filePath) then throw "file_path가 필요합니다"
      else
        match field args a_start_line, field args a_end_line with
        | Some startLine, Some endLine =>
            let resolvedPath := resolvePath H filePath in
            let* result := executeSelectedLines H resolvedPath startLine endLine in
            ret (runReport "선택된 라인 실행 " result)
        | _, _ => throw "start_line과 end_line이 필요합니다"
        end
  | None => throw "file_path가 필요합니다"
  end.

(** The request handler.  [browse] stands for the case [browse_do_files],
    whose directory listing is outside the machine state; [today] is the
    clock reading the template takes. *)
Definition callTool (browse : option ToolArgs -> M string) (today : string)
           (name : string) (args : option ToolArgs) : M string :=
  try_catch
    (if String.eqb name "browse_do_files" then browse args
     else if String.eqb name "read_do_file" then read_do_file args
     else if String.eqb name "write_do_file" then write_do_file args
     else if String.eqb name "edit_do_file" then
       edit_do_file H
         (match args with
          | Some a => Some {| file_path := a_file_path a; operation := a_operation a;
                              params := a_params a |}
          | None => None
          end)
     else if String.eqb name "generate_do_template" then generate_do_template today args
     else if String.eqb name "run_do_file" then run_do_file args
     else if String.eqb name "run_do_selected_lines" then run_do_selected_lines args
     else throw ("알 수 없는 도구: " +:+ name))
    (fun error => ret ("오류 발생: " +:+ error)).

End Tools.


(** The body of an ephemeral script as lines: each selected line under its
    provenance comment. *)
Definition taggedLines (startLine : Z) (selectedLines : list string) : list string :=
  concat (imap (fun index line =>
                  ["* Line " +:+ Js.of_Z (startLine + Z.of_nat index); line])
               selectedLines).

(** Requests that carry only a path, a content and a backup flag, and
    requests that carry only a path and a line range. *)
Definition writeArgs (filePath content : option string) (flag : option bool) : ToolArgs :=
  {| a_directory := None; a_file_path := filePath; a_content := content;
     a_create_backup := flag; a_operation := None; a_params := None;
     a_description := None; a_output_path := None; a_start_line := None;
     a_end_line := None |}.

Definition rangeArgs (filePath : option string) (startLine endLine : option Z) : ToolArgs :=
  {| a_directory := None; a_file_path := filePath; a_content := None;
     a_create_backup := None; a_operation := None; a_params := None;
     a_description := None; a_output_path := None; a_start_line := startLine;
     a_end_line := endLine |}.

(** The line of the template that carries the marker of each section. *)
Definition templateMarkerLine (sn : SectionName) : string :=
  match sn with
  | sec_setup => "* 초기 설정"
  | sec_data => "* 데이터 로드"
  | sec_preprocessing => "* 변수 생성 및 전처리"
  | sec_descriptive => "* 기술통계"
  | sec_analysis => "* 주요 분석"
  | sec_output => "* 결과 저장"
  end.

(** ** Listing the do-files of a directory

    [FileManager.listDoFiles], on what [readdir] and [stat] report of the
    directory: for each entry its name, whether it is a regular file, its
    size and its modification time in milliseconds. *)

Record DirEntry : Type := {
  d_name : string;
  d_isFile : bool;
  d_size : Z;
  d_mtime : Z
}.

Record FileInfo : Type := {
  f_name : string;
  f_path : string;
  f_size : Z;
  f_modified : Z
}.

(** [s.endsWith(suffix)] *)
Fixpoint endsWith (suffix s : string) : bool :=
  String.eqb s suffix ||
  match s with
  | EmptyString => false
  | String _ rest => endsWith suffix rest
  end.

(** [sort((a, b) => b.modified.getTime() - a.modified.getTime())]: the
    stable sort, newest first; files of equal time keep their order. *)
Fixpoint insertNewestFirst (x : FileInfo) (sorted : list FileInfo) : list FileInfo :=
  match sorted with
  | [] => [x]
  | y :: rest =>
      if (f_modified x <? f_modified y)%Z then y :: insertNewestFirst x rest
      else x :: y :: rest
  end.

Definition sortNewestFirst (infos : list FileInfo) : list FileInfo :=
  foldr insertNewestFirst [] infos.

(** [a] may stand before [b] in a listing that is newest first. *)
Definition newerOrSame (a b : FileInfo) : Prop := (f_modified b <= f_modified a)%Z.

Section Listing.

Variable H : Host.

Definition searchDirOf (directory : option string) : string :=
  match directory with
  | Some d => if Js.truthy d then resolvePath H d else workspaceDir H
  | None => workspaceDir H
  end.

Definition infoOf (searchDir : string) (entry : DirEntry) : FileInfo :=
  {| f_name := d_name entry;
     f_path := path_join H searchDir (d_name entry);
     f_size := d_size entry;
     f_modified := d_mtime entry |}.

(** The [for] loop over the entries. *)
Fixpoint collectDoFiles (searchDir : string) (entries : list DirEntry) : list FileInfo :=
  match entries with
  | [] => []
  | entry :: rest =>
      if d_isFile entry && endsWith ".do" (d_name entry)
      then infoOf searchDir entry :: collectDoFiles searchDir rest
      else collectDoFiles searchDir rest
  end.

Definition listDoFiles (directory : option string) (entries : list DirEntry) : list FileInfo :=
  sortNewestFirst (collectDoFiles (searchDirOf directory) entries).

End Listing.

(** Keys every JavaScript object inherits from [Object.prototype]; looking
    one of them up in [sectionMarkers] does not give [undefined]. *)
Definition objectPrototypeKeys : list string :=
  [ "constructor"; "__proto__"; "hasOwnProperty"; "isPrototypeOf"; "propertyIsEnumerable";
    "toLocaleString"; "toString"; "valueOf"; "__defineGetter__"; "__defineSetter__";
    "__lookupGetter__"; "__lookupSetter__" ].

(** * Properties *)

(** ** Strings and lines *)

Lemma app_nil_l (s : string) : "" +:+ s = s.
Proof. reflexivity. Qed.

Lemma app_cons (a : ascii) (s t : string) : String a s +:+ t = String a (s +:+ t).
Proof. reflexivity. Qed.

Lemma app_nil_r (s : string) : s +:+ "" = s.
Proof. induction s as [|a s IH]; [reflexivity | now rewrite app_cons, IH]. Qed.

Lemma app_assoc (s t u : string) : (s +:+ t) +:+ u = s +:+ t +:+ u.
Proof. induction s as [|a s IH]; [reflexivity | now rewrite !app_cons, IH]. Qed.

Lemma length_app (s t : string) :
  String.length (s +:+ t) = (String.length s + String.length t)%nat.
Proof. induction s as [|a s IH]; [reflexivity | rewrite app_cons; simpl; now rewrite IH]. Qed.

Lemma split_nl_nonempty (s : string) : Js.split_nl s <> [].
Proof.
  destruct s as [|a s]; simpl; [discriminate |].
  destruct (Js.is_nl a); [discriminate |].
  destruct (Js.split_nl s); discriminate.
Qed.

Lemma join_cons (sep x y : string) (rest : list string) :
  Js.join sep (x :: y :: rest) = x +:+ sep +:+ Js.join sep (y :: rest).
Proof. reflexivity. Qed.

(** Splitting at newlines loses nothing: joining the lines gives the text back. *)
Lemma join_split_nl (s : string) : Js.join Js.nl (Js.split_nl s) = s.
Proof.
  induction s as [|a s IH]; [reflexivity |].
  simpl Js.split_nl. destruct (Js.is_nl a) eqn:Ha.
  - apply Ascii.eqb_eq in Ha. subst a.
    pose proof (split_nl_nonempty s) as Hne.
    destruct (Js.split_nl s) as [|h t]; [congruence |].
    rewrite join_cons, IH. reflexivity.
  - pose proof (split_nl_nonempty s) as Hne.
    destruct (Js.split_nl s) as [|h t]; [congruence |].
    destruct t as [|h' t].
    + simpl in *. now rewrite IH.
    + rewrite join_cons in *. rewrite app_cons. now rewrite IH.
Qed.

(** No line produced by [split] contains a newline. *)
Lemma split_nl_no_newline (s line : string) :
  line ∈ Js.split_nl s -> forall u v, line <> u +:+ Js.nl +:+ v.
Proof.
  revert line. induction s as [|a s IH]; intros line Hin u v.
  - apply list_elem_of_singleton in Hin. subst. destruct u; discriminate.
  - simpl in Hin. destruct (Js.is_nl a) eqn:Ha.
    + apply elem_of_cons in Hin as [-> | Hin]; [destruct u; discriminate | now apply IH].
    + pose proof (split_nl_nonempty s) as Hne.
      destruct (Js.split_nl s) as [|h t]; [congruence |].
      apply elem_of_cons in Hin as [-> | Hin].
      * destruct u as [|b u]; rewrite ?app_cons, ?app_nil_l; unfold Js.nl;
          intros Heq; injection Heq as Hb He.
        -- subst a. discriminate.
        -- apply (IH h (list_elem_of_here _ _) u v). exact He.
      * apply IH. now apply list_elem_of_further.
Qed.

(** ** Line ranges (C3) *)

Section Ranges.

Context {A : Type}.
Implicit Types xs : list A.

Lemma slice_in_range xs (b e : Z) :
  (0 <= b)%Z -> (b <= e)%Z -> (e <= Z.of_nat (length xs))%Z ->
  Js.slice xs b e = take (Z.to_nat e - Z.to_nat b) (drop (Z.to_nat b) xs).
Proof.
  intros Hb Hbe He. unfold Js.slice.
  destruct (Z.ltb_spec b 0); [lia |]. destruct (Z.ltb_spec e 0); [lia |].
  rewrite !Z.min_l by lia. f_equal. lia.
Qed.

Lemma slice_length xs (b e : Z) :
  (0 <= b)%Z -> (b <= e)%Z -> (e <= Z.of_nat (length xs))%Z ->
  Z.of_nat (length (Js.slice xs b e)) = (e - b)%Z.
Proof.
  intros Hb Hbe He. rewrite slice_in_range by assumption.
  rewrite length_take, length_drop. lia.
Qed.

Lemma slice_lookup xs (b e : Z) (k : nat) (x : A) :
  (0 <= b)%Z -> (b <= e)%Z -> (e <= Z.of_nat (length xs))%Z ->
  Js.slice xs b e !! k = Some x -> xs !! (Z.to_nat b + k)%nat = Some x.
Proof.
  intros Hb Hbe He. rewrite slice_in_range by assumption. intros Hk.
  apply lookup_take_Some in Hk as [Hk _]. now rewrite lookup_drop in Hk.
Qed.

Lemma slice_partition xs (b e : Z) :
  (0 <= b)%Z -> (b <= e)%Z -> (e <= Z.of_nat (length xs))%Z ->
  (take (Z.to_nat b) xs ++ Js.slice xs b e ++ drop (Z.to_nat e) xs)%list = xs.
Proof.
  intros Hb Hbe He. rewrite slice_in_range by assumption.
  replace (Z.to_nat e) with (Z.to_nat b + (Z.to_nat e - Z.to_nat b))%nat at 2 by lia.
  rewrite <- drop_drop, take_drop. apply take_drop.
Qed.

End Ranges.

(** ** Range validation (C4) *)

(** C4.  On a readable script of [N] lines, each of [startLine > endLine],
    [startLine < 1] and [endLine > N] makes [executeSelectedLines] throw the
    range error (wrapped by the outer [catch]) and leaves the whole machine
    state as it was: no file has been written and no process launched. *)
Theorem invalid_range_rejected (H : Host) (w : world) (filePath content : string)
        (startLine endLine : Z) :
  files w !! filePath = Some content ->
  (startLine > endLine \/ startLine < 1 \/
   endLine > Z.of_nat (length (Js.split_nl content)))%Z ->
  exists msg,
    executeSelectedLines H filePath startLine endLine w
      = (Throw ("선택된 라인 실행 실패: " +:+ msg), w) /\
    (msg = badRangeMessage startLine endLine (length (Js.split_nl content)) \/
     msg = reversedRangeMessage startLine endLine).
Proof.
  intros Hfile Hbad.
  unfold executeSelectedLines, try_catch, bind, Fs.readFile. rewrite Hfile.
  set (n := Z.of_nat (length (Js.split_nl content))).
  destruct ((startLine <? 1)%Z || (endLine <? 1)%Z || (startLine >? n)%Z || (endLine >? n)%Z)
    eqn:Hout.
  - eexists. split; [reflexivity | now left].
  - destruct (startLine >? endLine)%Z eqn:Hrev.
    + eexists. split; [reflexivity | now right].
    + exfalso. apply orb_false_elim in Hout as [Hout He].
      apply orb_false_elim in Hout as [Hout Hs].
      apply orb_false_elim in Hout as [Hs1 He1].
      subst n. lia.
Qed.

Lemma invalid_range_rejected_witness :
  exists msg,
    executeSelectedLines (Posix.host Posix.unlaunchable) "/w/a.do" 3 2
        (Posix.disk [("/w/a.do", "describe" +:+ Js.nl +:+ "summarize" +:+ Js.nl +:+ "exit")])
      = (Throw ("선택된 라인 실행 실패: " +:+ msg),
         Posix.disk [("/w/a.do", "describe" +:+ Js.nl +:+ "summarize" +:+ Js.nl +:+ "exit")]) /\
    (msg = badRangeMessage 3 2 (length (Js.split_nl ("describe" +:+ Js.nl +:+ "summarize" +:+ Js.nl +:+ "exit"))) \/
     msg = reversedRangeMessage 3 2).
Proof.
  apply (invalid_range_rejected (Posix.host Posix.unlaunchable)
           (Posix.disk [("/w/a.do", "describe" +:+ Js.nl +:+ "summarize" +:+ Js.nl +:+ "exit")])
           "/w/a.do" ("describe" +:+ Js.nl +:+ "summarize" +:+ Js.nl +:+ "exit") 3 2).
  - vm_compute. reflexivity.
  - left. lia.
Defined.

(** ** The synthesized script (C7) *)

Lemma join_snoc (sep last : string) (xs : list string) :
  Js.join sep (xs ++ [last])%list =
  match xs with
  | [] => last
  | _ => Js.join sep xs +:+ sep +:+ last
  end.
Proof.
  induction xs as [|x xs IH]; [reflexivity |].
  destruct xs as [|y xs]; [reflexivity |].
  change (Js.join sep ((x :: y :: xs) ++ [last])%list)
    with (x +:+ sep +:+ Js.join sep ((y :: xs) ++ [last])%list).
  rewrite IH, join_cons. now rewrite !app_assoc.
Qed.

Lemma processedLines_snoc (init : list string) (last : string) (startLine : Z) :
  processedLines (init ++ [last])%list startLine =
  match init with
  | [] => ""
  | _ => processedLines init startLine +:+ Js.nl
  end +:+ "* Line " +:+ Js.of_Z (startLine + Z.of_nat (length init)) +:+ Js.nl +:+ last.
Proof.
  unfold processedLines. rewrite imap_app. simpl imap.
  rewrite join_snoc. unfold processedLine at 2. rewrite Nat.add_0_r.
  destruct init as [|x init]; [reflexivity |].
  simpl imap. now rewrite !app_assoc.
Qed.

(** C7.  The synthesized script always ends with the completion comment and
    an [exit] statement, whatever the selection; a selection whose last line
    is itself [exit] therefore yields a script with that [exit] followed by
    the appended one. *)
Theorem termination_always_appended (H : Host) (selectedLines : list string)
        (originalFilePath : string) (startLine endLine : Z) :
  prepareExecutableCode H selectedLines originalFilePath startLine endLine =
    (header H originalFilePath startLine endLine +:+ setupCode selectedLines +:+
     processedLines selectedLines startLine +:+ Js.nl +:+ Js.nl +:+
     "* 선택된 라인 실행 완료" +:+ Js.nl) +:+ "exit" +:+ Js.nl
  /\
  exists before,
    prepareExecutableCode H (selectedLines ++ ["exit"])%list originalFilePath startLine endLine =
      before +:+ "exit" +:+ Js.nl +:+ Js.nl +:+ "* 선택된 라인 실행 완료" +:+ Js.nl +:+
      "exit" +:+ Js.nl.
Proof.
  split.
  - unfold prepareExecutableCode, trailer. rewrite !app_assoc. reflexivity.
  - unfold prepareExecutableCode, trailer. rewrite processedLines_snoc.
    exists (header H originalFilePath startLine endLine +:+
            setupCode (selectedLines ++ ["exit"])%list +:+
            match selectedLines with
            | [] => ""
            | _ => processedLines selectedLines startLine +:+ Js.nl
            end +:+
            "* Line " +:+ Js.of_Z (startLine + Z.of_nat (length selectedLines)) +:+ Js.nl).
    rewrite !app_assoc. reflexivity.
Qed.

(** ** Running the interpreter (C8, C9) *)

Section ExecuteDoFile.

Variable H : Host.
Variables (doFilePath : string) (w : world).

Let outcome : proc_outcome :=
  interpreter H (stataPath H) (batchArgs H doFilePath) (path_dirname H doFilePath) (files w).

Lemma executeDoFile_spawn_error (msg : string) :
  outcome = SpawnError msg ->
  (executeDoFile H doFilePath w).1 = Throw ("Stata 실행 실패: " +:+ msg).
Proof.
  unfold outcome, executeDoFile, spawn. intros ->. reflexivity.
Qed.

Lemma executeDoFile_closed (code : option Z) (out err : string)
      (store : gmap string string) :
  outcome = Closed code out err store ->
  (executeDoFile H doFilePath w).1 =
  Ok match store !! logPathOf doFilePath with
     | Some logContent =>
         {| success := code_is_zero code;
            output := Js.or_else logContent (Js.or_else out err);
            logPath := logPathOf doFilePath |}
     | None =>
         {| success := false;
            output := Js.or_else err
                        ("실행 오류: " +:+ "ENOENT: no such file or directory, open '"
                         +:+ logPathOf doFilePath +:+ "'");
            logPath := logPathOf doFilePath |}
     end.
Proof.
  unfold outcome, executeDoFile, spawn, Fs.readFile. intros ->. simpl files.
  destruct (store !! logPathOf doFilePath); reflexivity.
Qed.

End ExecuteDoFile.







(** ** The section editor (C1, C5) *)

Lemma findIndex_None {A} (p : A -> bool) (xs : list A) :
  Js.findIndex p xs = None <-> forall x, x ∈ xs -> p x = false.
Proof.
  induction xs as [|x xs IH]; simpl.
  - split; [intros _ y Hy; inversion Hy | reflexivity].
  - destruct (p x) eqn:Hpx.
    + split; [discriminate |]. intros Hall.
      rewrite (Hall x (list_elem_of_here _ _)) in Hpx. discriminate.
    + destruct (Js.findIndex p xs) as [i|]; simpl.
      * split; [discriminate |]. intros Hall.
        assert (Hxs : Some i = None)
          by (apply IH; intros y Hy; apply Hall; now apply list_elem_of_further).
        discriminate.
      * split; [| reflexivity]. intros _ y Hy.
        apply elem_of_cons in Hy as [-> | Hy]; [exact Hpx |].
        now apply (proj1 IH).
Qed.

(** [findIndex] returns the first index whose element satisfies the test. *)
Lemma findIndex_Some {A} (p : A -> bool) (xs : list A) (i : nat) :
  Js.findIndex p xs = Some i ->
  (exists x, xs !! i = Some x /\ p x = true) /\
  (forall j y, (j < i)%nat -> xs !! j = Some y -> p y = false).
Proof.
  revert i. induction xs as [|x xs IH]; intros i; simpl; [discriminate |].
  destruct (p x) eqn:Hpx.
  - intros [= <-]. split; [exists x; auto | intros j y Hj; lia].
  - destruct (Js.findIndex p xs) as [i'|]; simpl; [| discriminate].
    intros [= <-]. destruct (IH i' eq_refl) as [Hat Hbefore]. split; [exact Hat |].
    intros [|j] y Hj; simpl; [now intros [= <-] | apply Hbefore; lia].
Qed.

#[local] Arguments Js.startsWith : simpl never.

(** Where the loop of [insertSection] stops: at the first line from [i] on
    that starts with [*], or at the end of the lines. *)
Lemma advance_spec (rest : list string) (i : nat) :
  (i <= advance rest i <= i + length rest)%nat /\
  (forall j line, (j < advance rest i - i)%nat -> rest !! j = Some line ->
                  Js.startsWith "*" line = false) /\
  (forall line, rest !! (advance rest i - i)%nat = Some line ->
                Js.startsWith "*" line = true).
Proof.
  revert i. induction rest as [|l rest IH]; intros i; simpl.
  - split; [lia | split].
    + intros j line Hj. lia.
    + intros line. now rewrite lookup_nil.
  - destruct (Js.startsWith "*" l) eqn:Hl; simpl.
    + split; [lia | split].
      * intros j line Hj. lia.
      * rewrite Nat.sub_diag. simpl. now intros line [= <-].
    + destruct (IH (S i)) as [Hrange [Hskipped Hstop]]. split; [lia | split].
      * intros [|j] line Hj; simpl; [now intros [= <-] |].
        apply Hskipped. lia.
      * intros line. replace (advance rest (S i) - i)%nat
          with (S (advance rest (S i) - S i)) by lia.
        simpl. apply Hstop.
Qed.

Lemma registered_marker (sn : SectionName) :
  exists mk, assoc (section_key sn) sectionMarkers = Some mk.
Proof. destruct sn; eexists; reflexivity. Qed.

Section Editor.

Variable H : Host.
Variables (w : world) (filePath S : string).
Hypothesis Hfile : files w !! resolvePath H filePath = Some S.

Lemma insertSection_absent (name : string) (mk : Re.pattern)
      (content : string) (position : option string) :
  assoc name sectionMarkers = Some mk ->
  (forall line, line ∈ Js.split_nl S -> Re.test mk line = false) ->
  insertSection H filePath name content position w
    = (Throw ("섹션을 찾을 수 없습니다: " +:+ name), w).
Proof.
  intros Hmk Habsent.
  unfold insertSection, bind, FileManager_readFile, Fs.readFile. rewrite Hfile, Hmk.
  apply findIndex_None in Habsent. rewrite Habsent. reflexivity.
Qed.

Lemma insertSection_present (name : string) (mk : Re.pattern)
      (content : string) (position : option string) (m : nat) :
  assoc name sectionMarkers = Some mk ->
  Js.findIndex (Re.test mk) (Js.split_nl S) = Some m ->
  insertSection H filePath name content position w
    = (Ok tt,
       set_files
         (<[resolvePath H filePath :=
              Js.join Js.nl
                (Js.splice_insert (Js.split_nl S)
                   (insertIndexOf (Js.split_nl S) m (default "after" position))
                   [""; content; ""])]> (files w)) w).
Proof.
  intros Hmk Hm.
  unfold insertSection, bind, FileManager_readFile, Fs.readFile. rewrite Hfile, Hmk, Hm.
  reflexivity.
Qed.

End Editor.

(** C5.  When no line of the script matches the marker of a registered
    section, every edit aimed at that section throws the section-not-found
    error and the machine state, the script included, is exactly as before:
    [insertSection] for each of the six names, [addVariable] for
    [preprocessing] and [addAnalysis] for [analysis]. *)
Theorem absent_marker_no_edit (H : Host) (w : world) (filePath S : string)
        (sn : SectionName) (mk : Re.pattern) :
  files w !! resolvePath H filePath = Some S ->
  assoc (section_key sn) sectionMarkers = Some mk ->
  (forall line, line ∈ Js.split_nl S -> Re.test mk line = false) ->
  (forall content position,
      insertSection H filePath (section_key sn) content position w
        = (Throw ("섹션을 찾을 수 없습니다: " +:+ section_key sn), w)) /\
  (sn = sec_preprocessing ->
   forall varName definition label,
     addVariable H filePath varName definition label w
       = (Throw "섹션을 찾을 수 없습니다: preprocessing", w)) /\
  (sn = sec_analysis ->
   forall analysisType specification,
     addAnalysis H filePath analysisType specification w
       = (Throw "섹션을 찾을 수 없습니다: analysis", w)).
Proof.
  intros Hfile Hmk Habsent. split; [| split].
  - intros content position. now apply (insertSection_absent H w filePath S Hfile _ mk).
  - intros -> varName definition label. unfold addVariable.
    now rewrite (insertSection_absent H w filePath S Hfile "preprocessing" mk).
  - intros -> analysisType specification. unfold addAnalysis.
    now rewrite (insertSection_absent H w filePath S Hfile "analysis" mk).
Qed.

Lemma absent_marker_no_edit_witness :
  insertSection (Posix.host Posix.unlaunchable) "a.do" (section_key sec_analysis)
                "regress y x" None
                (Posix.disk [("/w/a.do", "describe" +:+ Js.nl +:+ "summarize")])
  = (Throw ("섹션을 찾을 수 없습니다: " +:+ section_key sec_analysis),
     Posix.disk [("/w/a.do", "describe" +:+ Js.nl +:+ "summarize")]).
Proof.
  apply (proj1 (absent_marker_no_edit (Posix.host Posix.unlaunchable)
                  (Posix.disk [("/w/a.do", "describe" +:+ Js.nl +:+ "summarize")])
                  "a.do" ("describe" +:+ Js.nl +:+ "summarize") sec_analysis
                  (marker "주요 분석")
                  ltac:(vm_compute; reflexivity)
                  ltac:(reflexivity)
                  ltac:(apply findIndex_None; vm_compute; reflexivity))).
Defined.

(** C1, as the code has it.  When the marker of a registered section is
    found at line [m], insertion with position [after] (the default) writes
    the script back with the blank-padded block inserted at an index [k]
    such that: [k] is after the marker line; no line strictly between the
    marker and [k] starts with [*]; and the line at [k], if there is one,
    starts with [*].  The block is thus put immediately before the first
    comment line that follows the marker, or at the end of the script. *)
Theorem insert_after_placement (H : Host) (w : world) (filePath S content : string)
        (sn : SectionName) (mk : Re.pattern) (position : option string) (m : nat) :
  files w !! resolvePath H filePath = Some S ->
  assoc (section_key sn) sectionMarkers = Some mk ->
  Js.findIndex (Re.test mk) (Js.split_nl S) = Some m ->
  default "after" position = "after" ->
  exists k : nat,
    (m < k <= length (Js.split_nl S))%nat /\
    (forall j line, (m < j < k)%nat -> Js.split_nl S !! j = Some line ->
                    Js.startsWith "*" line = false) /\
    (forall line, Js.split_nl S !! k = Some line -> Js.startsWith "*" line = true) /\
    insertSection H filePath (section_key sn) content position w
      = (Ok tt,
         set_files
           (<[resolvePath H filePath :=
                Js.join Js.nl (take k (Js.split_nl S) ++ [""; content; ""]
                               ++ drop k (Js.split_nl S))%list]> (files w)) w).
Proof.
  intros Hfile Hmk Hm Hpos.
  set (lines := Js.split_nl S).
  destruct (findIndex_Some _ _ _ Hm) as [[x [Hx _]] _].
  apply lookup_lt_Some in Hx. fold lines in Hx.
  destruct (advance_spec (drop (m + 1) lines) (m + 1)) as [Hrange [Hskipped Hstop]].
  rewrite length_drop in Hrange.
  exists (advance (drop (m + 1) lines) (m + 1)). split; [lia | split; [| split]].
  - intros j line Hj Hline. apply (Hskipped (j - (m + 1))%nat); [lia |].
    rewrite lookup_drop. now replace (m + 1 + (j - (m + 1)))%nat with j by lia.
  - intros line Hline. apply Hstop. rewrite lookup_drop.
    now replace (m + 1 + (advance (drop (m + 1) lines) (m + 1) - (m + 1)))%nat
      with (advance (drop (m + 1) lines) (m + 1)) by lia.
  - rewrite (insertSection_present H w filePath S Hfile _ mk content position m Hmk Hm).
    unfold insertIndexOf. rewrite Hpos. reflexivity.
Qed.

Lemma insert_after_placement_witness :
  exists k : nat,
    (0 < k <= length (Js.split_nl ("* 주요 분석" +:+ Js.nl +:+ "summarize")))%nat /\
    (forall j line, (0 < j < k)%nat ->
       Js.split_nl ("* 주요 분석" +:+ Js.nl +:+ "summarize") !! j = Some line ->
       Js.startsWith "*" line = false) /\
    (forall line, Js.split_nl ("* 주요 분석" +:+ Js.nl +:+ "summarize") !! k = Some line ->
       Js.startsWith "*" line = true) /\
    insertSection (Posix.host Posix.unlaunchable) "/w/a.do" (section_key sec_analysis)
                  "regress y x" None
                  (Posix.disk [("/w/a.do", "* 주요 분석" +:+ Js.nl +:+ "summarize")])
      = (Ok tt,
         set_files
           (<[resolvePath (Posix.host Posix.unlaunchable) "/w/a.do" :=
                Js.join Js.nl
                  (take k (Js.split_nl ("* 주요 분석" +:+ Js.nl +:+ "summarize"))
                   ++ [""; "regress y x"; ""]
                   ++ drop k (Js.split_nl ("* 주요 분석" +:+ Js.nl +:+ "summarize")))%list]>
              (files (Posix.disk [("/w/a.do", "* 주요 분석" +:+ Js.nl +:+ "summarize")])))
           (Posix.disk [("/w/a.do", "* 주요 분석" +:+ Js.nl +:+ "summarize")])).
Proof.
  apply (insert_after_placement (Posix.host Posix.unlaunchable)
           (Posix.disk [("/w/a.do", "* 주요 분석" +:+ Js.nl +:+ "summarize")])
           "/w/a.do" ("* 주요 분석" +:+ Js.nl +:+ "summarize") "regress y x"
           sec_analysis (marker "주요 분석") None 0%nat).
  - vm_compute. reflexivity.
  - reflexivity.
  - vm_compute. reflexivity.
  - reflexivity.
Defined.

(** The claim C1 fails on a script whose marker line is followed by a
    comment line: the block lands between the marker and that comment line,
    where the specification's rule puts it after the comment line. *)
Lemma insert_after_counterexample :
  let script := "* 주요 분석" +:+ Js.nl +:+ "* regress y x1 x2 x3" +:+ Js.nl +:+ "summarize" in
  let w := Posix.disk [("/w/a.do", script)] in
  Js.findIndex (Re.test (marker "주요 분석")) (Js.split_nl script) = Some 0%nat /\
  files (insertSection (Posix.host Posix.unlaunchable) "/w/a.do" "analysis"
                       "regress y x" (Some "after") w).2 !! "/w/a.do"
    = Some ("* 주요 분석" +:+ Js.nl +:+ Js.nl +:+ "regress y x" +:+ Js.nl +:+ Js.nl +:+
            "* regress y x1 x2 x3" +:+ Js.nl +:+ "summarize") /\
  Js.join Js.nl (Spec.insert_after (Js.split_nl script) 0 "regress y x")
    = "* 주요 분석" +:+ Js.nl +:+ "* regress y x1 x2 x3" +:+ Js.nl +:+ Js.nl +:+
      "regress y x" +:+ Js.nl +:+ Js.nl +:+ "summarize" /\
  files (insertSection (Posix.host Posix.unlaunchable) "/w/a.do" "analysis"
                       "regress y x" (Some "after") w).2 !! "/w/a.do"
    <> Some (Js.join Js.nl (Spec.insert_after (Js.split_nl script) 0 "regress y x")).
Proof.
  repeat split; try (vm_compute; reflexivity).
  vm_compute. discriminate.
Qed.

(** ** Cleanup of the ephemeral files (C2) *)

(** The [finally] block never throws.  When the ephemeral script can be
    deleted it is, and then so is the log unless it is absent or refused. *)
Lemma cleanup_deletes (temp : string) (w : world) :
  is_Some (files w !! temp) -> temp ∉ undeletable w ->
  exists w',
    cleanup temp w = (Ok tt, w') /\
    files w' !! temp = None /\
    (logPathOf temp ∉ undeletable w -> files w' !! logPathOf temp = None) /\
    console w' = console w /\ launched w' = launched w.
Proof.
  intros [c Hc] Hdel.
  unfold cleanup, try_catch, bind, Fs.unlink. rewrite Hc.
  destruct (decide (temp ∈ undeletable w)) as [Hin | _]; [contradiction |].
  simpl. fold (logPathOf temp).
  destruct (delete temp (files w) !! logPathOf temp) as [l|] eqn:Hlog.
  - destruct (decide (logPathOf temp ∈ undeletable w)) as [Hin | Hnotin].
    + eexists. split; [reflexivity |]. simpl.
      split; [apply lookup_delete_eq |]. split; [contradiction | auto].
    + eexists. split; [reflexivity |]. simpl.
      split; [| split; [intros _; apply lookup_delete_eq | auto]].
      destruct (decide (logPathOf temp = temp)) as [-> | Hne];
        [apply lookup_delete_eq | rewrite lookup_delete_ne by exact Hne; apply lookup_delete_eq].
  - eexists. split; [reflexivity |]. simpl.
    split; [apply lookup_delete_eq |]. split; [intros _; exact Hlog | auto].
Qed.

(** When the ephemeral script cannot be deleted the failure goes to the
    console and nothing is thrown. *)
Lemma cleanup_logs_failure (temp : string) (w : world) :
  files w !! temp = None \/ temp ∈ undeletable w ->
  exists e w',
    cleanup temp w = (Ok tt, w') /\
    console w' = (console w ++ ["임시 파일 정리 실패: " +:+ e])%list.
Proof.
  intros Hfail. unfold cleanup, try_catch, bind, Fs.unlink, console_error.
  destruct (files w !! temp) as [c|] eqn:Hc.
  - destruct Hfail as [Hnone | Hin]; [discriminate |].
    destruct (decide (temp ∈ undeletable w)) as [_ | Hnotin]; [| contradiction].
    do 2 eexists. split; reflexivity.
  - do 2 eexists. split; reflexivity.
Qed.

Section SelectedLines.

Variable H : Host.
Variables (w : world) (filePath content : string) (startLine endLine : Z).
Hypothesis Hfile : files w !! filePath = Some content.
Hypothesis Hrange :
  (1 <= startLine /\ startLine <= endLine /\
   endLine <= Z.of_nat (length (Js.split_nl content)))%Z.

(** A validated call: write the ephemeral script, run it, clean up. *)
Lemma executeSelectedLines_valid :
  let temp := tempFilePathOf H filePath startLine endLine in
  let script :=
    prepareExecutableCode H (Js.slice (Js.split_nl content) (startLine - 1) endLine)
                          filePath startLine endLine in
  executeSelectedLines H filePath startLine endLine w =
  let '(r, w2) := executeDoFile H temp (set_files (<[temp := script]> (files w)) w) in
  (match r with
   | Ok res => Ok (enhance filePath startLine endLine res)
   | Throw e => Throw ("선택된 라인 실행 실패: " +:+ e)
   end, (cleanup temp w2).2).
Proof.
  intros temp script.
  unfold executeSelectedLines, try_catch at 1, bind at 1, Fs.readFile. rewrite Hfile.
  destruct Hrange as [H1 [H2 H3]].
  destruct (Z.ltb_spec startLine 1); [lia |]. destruct (Z.ltb_spec endLine 1); [lia |].
  rewrite !Z.gtb_ltb.
  destruct (Z.ltb_spec (Z.of_nat (length (Js.split_nl content))) startLine); [lia |].
  destruct (Z.ltb_spec (Z.of_nat (length (Js.split_nl content))) endLine); [lia |].
  destruct (Z.ltb_spec endLine startLine); [lia |].
  cbn [orb]. cbv iota. unfold bind, Fs.writeFile, try_finally, ret, throw.
  fold temp. fold script.
  destruct (executeDoFile H temp (set_files (<[temp:=script]> (files w)) w)) as [r w2].
  assert (Hc : exists w3, cleanup temp w2 = (Ok tt, w3)).
  { destruct (files w2 !! temp) as [c|] eqn:Hc.
    - destruct (decide (temp ∈ undeletable w2)) as [Hin | Hnotin].
      + destruct (cleanup_logs_failure temp w2 (or_intror Hin)) as [e [w3 [Hw3 _]]]. eauto.
      + destruct (cleanup_deletes temp w2 (ex_intro _ c Hc) Hnotin) as [w3 [Hw3 _]]. eauto.
    - destruct (cleanup_logs_failure temp w2 (or_introl Hc)) as [e [w3 [Hw3 _]]]. eauto. }
  destruct Hc as [w3 Hw3].
  destruct r; cbv beta iota; rewrite Hw3; reflexivity.
Qed.

End SelectedLines.

Lemma executeDoFile_world (H : Host) (doFilePath : string) (w : world) :
  (executeDoFile H doFilePath w).2 =
  {| files := match interpreter H (stataPath H) (batchArgs H doFilePath)
                                (path_dirname H doFilePath) (files w) with
              | SpawnError _ => files w
              | Closed _ _ _ store => store
              end;
     undeletable := undeletable w;
     console := console w;
     launched := launched w ++ [(stataPath H, batchArgs H doFilePath)] |}.
Proof.
  unfold executeDoFile, spawn, Fs.readFile.
  destruct (interpreter _ _ _ _ _) as [msg | code out err store]; [reflexivity |].
  simpl files. destruct (store !! logPathOf doFilePath); reflexivity.
Qed.




(** ** The tool handler (C10) *)

Lemma eqb_false_of_ne (a b : string) : a <> b -> String.eqb a b = false.
Proof. intros Hne. now apply String.eqb_neq. Qed.

(** C10, as the code has it.  For a call whose [file_path], [operation] and
    [params] are present, whose operation is none of the three known ones,
    and whose target file exists, the handler copies the file to the backup
    path, edits nothing (the target still has its content) and answers
    with the file-modified confirmation carrying that content. *)
Theorem unknown_operation_reports_success (H : Host) (w : world)
        (filePath op current : string) (params : EditParams) :
  files w !! resolvePath H filePath = Some current ->
  Js.truthy filePath = true -> Js.truthy op = true ->
  op <> "add_variable" -> op <> "add_analysis" -> op <> "insert_section" ->
  let args := {| file_path := Some filePath; operation := Some op; params := Some params |} in
  let after := callTool_edit_do_file H (Some args) w in
  after = (Ok (modifiedMessage current),
           set_files (<[backupPathOf H filePath := current]> (files w)) w) /\
  files after.2 !! backupPathOf H filePath = Some current /\
  files after.2 !! resolvePath H filePath = Some current.
Proof.
  intros Hfile Hpath Hop Hv Ha Hi args after.
  assert (Hafter : after = (Ok (modifiedMessage current),
                            set_files (<[backupPathOf H filePath := current]> (files w)) w)).
  { unfold after, callTool_edit_do_file, try_catch, edit_do_file, args. simpl.
    rewrite Hpath, Hop. simpl.
    unfold bind, createBackup, bind, Fs.copyFile. rewrite Hfile.
    unfold editSwitch. rewrite !eqb_false_of_ne by assumption.
    unfold ret, FileManager_readFile, Fs.readFile. simpl files.
    destruct (decide (backupPathOf H filePath = resolvePath H filePath)) as [Heq | Hne].
    - rewrite Heq, lookup_insert_eq. reflexivity.
    - rewrite lookup_insert_ne by exact Hne. rewrite Hfile. reflexivity. }
  split; [exact Hafter |]. rewrite Hafter. simpl.
  split; [apply lookup_insert_eq |].
  destruct (decide (backupPathOf H filePath = resolvePath H filePath)) as [Heq | Hne].
  - rewrite Heq. apply lookup_insert_eq.
  - now rewrite lookup_insert_ne.
Qed.

Lemma unknown_operation_reports_success_witness :
  let h := Posix.host Posix.unlaunchable in
  let w := Posix.disk [("/w/a.do", "describe")] in
  let params := {| p_name := None; p_definition := None; p_label := None; p_type := None;
                   p_specification := None; p_section := None; p_content := None;
                   p_position := None |} in
  let args := {| file_path := Some "a.do"; operation := Some "rename_variable";
                 params := Some params |} in
  let after := callTool_edit_do_file h (Some args) w in
  after = (Ok (modifiedMessage "describe"),
           set_files (<[backupPathOf h "a.do" := "describe"]> (files w)) w) /\
  files after.2 !! backupPathOf h "a.do" = Some "describe" /\
  files after.2 !! resolvePath h "a.do" = Some "describe".
Proof.
  apply (unknown_operation_reports_success (Posix.host Posix.unlaunchable)
           (Posix.disk [("/w/a.do", "describe")]) "a.do" "rename_variable" "describe").
  - vm_compute. reflexivity.
  - reflexivity.
  - reflexivity.
  - discriminate.
  - discriminate.
  - discriminate.
Defined.

(** The claim C10 fails where the target file does not exist: the backup
    copy throws, no backup is made, and the handler answers with an error
    text in place of the confirmation. *)
Lemma unknown_operation_counterexample :
  let h := Posix.host Posix.unlaunchable in
  let w := Posix.disk [("/w/other.do", "describe")] in
  let params := {| p_name := None; p_definition := None; p_label := None; p_type := None;
                   p_specification := None; p_section := None; p_content := None;
                   p_position := None |} in
  let args := {| file_path := Some "a.do"; operation := Some "rename_variable";
                 params := Some params |} in
  callTool_edit_do_file h (Some args) w =
    (Ok ("오류 발생: ENOENT: no such file or directory, copyfile '/w/a.do' -> "
         +:+ "'/w/.stata-backups/a.do.2024-01-02T03-04-05-678Z.bak'"), w).
Proof. vm_compute. reflexivity. Qed.

(** ** Regular expressions: the matcher decides the language *)

Section Matcher.

Variable ic : bool.

Lemma app_eq_nil (u v : string) : u +:+ v = "" -> u = "" /\ v = "".
Proof. destruct u; [intros Hv; now rewrite app_nil_l in Hv | discriminate]. Qed.

Lemma matches_Void (s : string) : ~ Re.matches ic Re.Void s.
Proof. intros Hm. inversion Hm. Qed.

Lemma matches_Eps (s : string) : Re.matches ic Re.Eps s <-> s = "".
Proof. split; [intros Hm; now inversion Hm | intros ->; constructor]. Qed.

Lemma matches_Chr (a : ascii) (s : string) :
  Re.matches ic (Re.Chr a) s <-> exists b, s = String b "" /\ Re.chr_eq ic a b = true.
Proof.
  split.
  - intros Hm. inversion Hm; subst. eauto.
  - intros [b [-> Hb]]. now constructor.
Qed.

Lemma matches_Seq (r1 r2 : Re.regex) (s : string) :
  Re.matches ic (Re.Seq r1 r2) s <->
  exists u v, s = u +:+ v /\ Re.matches ic r1 u /\ Re.matches ic r2 v.
Proof.
  split.
  - intros Hm. inversion Hm; subst. eauto.
  - intros [u [v [-> [Hu Hv]]]]. now constructor.
Qed.

Lemma matches_Alt (r1 r2 : Re.regex) (s : string) :
  Re.matches ic (Re.Alt r1 r2) s <-> Re.matches ic r1 s \/ Re.matches ic r2 s.
Proof.
  split.
  - intros Hm. inversion Hm; subst; auto.
  - intros [Hm | Hm]; [now apply Re.m_alt_l | now apply Re.m_alt_r].
Qed.

(** A non-empty word of a starred language starts with a non-empty word
    of the language. *)
Lemma matches_Star_cons (r : Re.regex) (a : ascii) (s : string) :
  Re.matches ic (Re.Star r) (String a s) ->
  exists u v, s = u +:+ v /\ Re.matches ic r (String a u) /\ Re.matches ic (Re.Star r) v.
Proof.
  intros Hm. remember (Re.Star r) as sr eqn:Hsr. remember (String a s) as w eqn:Hw.
  induction Hm as [| | | | | r' | r' u v Hu _ Hv IHv]; try discriminate.
  injection Hsr as ->.
  destruct u as [|b u].
  - rewrite app_nil_l in Hw. now apply IHv.
  - rewrite app_cons in Hw. injection Hw as <- <-. eauto.
Qed.

Lemma nullable_spec (r : Re.regex) : Re.nullable r = true <-> Re.matches ic r "".
Proof.
  induction r as [| | a | r1 IH1 r2 IH2 | r1 IH1 r2 IH2 | r IH]; simpl.
  - split; [discriminate | intros Hm; inversion Hm].
  - split; [constructor | reflexivity].
  - split; [discriminate | intros Hm; inversion Hm].
  - rewrite andb_true_iff, IH1, IH2, matches_Seq. split.
    + intros [H1 H2]. exists "", "". auto.
    + intros [u [v [Huv [Hu Hv]]]]. symmetry in Huv.
      apply app_eq_nil in Huv as [-> ->]. auto.
  - rewrite orb_true_iff, IH1, IH2, matches_Alt. reflexivity.
  - split; [constructor | reflexivity].
Qed.

Lemma deriv_spec (r : Re.regex) (a : ascii) (s : string) :
  Re.matches ic (Re.deriv ic a r) s <-> Re.matches ic r (String a s).
Proof.
  revert s. induction r as [| | b | r1 IH1 r2 IH2 | r1 IH1 r2 IH2 | r IH]; intros s; simpl.
  - split; intros Hm; inversion Hm.
  - split; intros Hm; inversion Hm.
  - rewrite matches_Chr. destruct (Re.chr_eq ic b a) eqn:Hba.
    + rewrite matches_Eps. split.
      * intros ->. eauto.
      * intros [c [[= -> ->] _]]. reflexivity.
    + split; [intros Hm; inversion Hm |].
      intros [c [[= -> ->] Hc]]. congruence.
  - assert (Hseq : Re.matches ic (Re.Seq (Re.deriv ic a r1) r2) s \/
                   (Re.nullable r1 = true /\ Re.matches ic (Re.deriv ic a r2) s)
                   <-> Re.matches ic (Re.Seq r1 r2) (String a s)).
    { rewrite !matches_Seq. split.
      - intros [[u [v [-> [Hu Hv]]]] | [Hnull Hv]].
        + exists (String a u), v. rewrite app_cons. split; [reflexivity |].
          split; [now apply IH1 | exact Hv].
        + exists "", (String a s). split; [reflexivity |].
          split; [now apply nullable_spec | now apply IH2].
      - intros [u [v [Huv [Hu Hv]]]]. destruct u as [|c u].
        + rewrite app_nil_l in Huv. subst v. right.
          split; [now apply nullable_spec | now apply IH2].
        + rewrite app_cons in Huv. injection Huv as <- ->. left.
          exists u, v. split; [reflexivity |]. split; [now apply IH1 | exact Hv]. }
    rewrite <- Hseq. destruct (Re.nullable r1).
    + rewrite matches_Alt. tauto.
    + split; [auto | intros [Hm | [Hf _]]; [exact Hm | discriminate]].
  - rewrite !matches_Alt, IH1, IH2. reflexivity.
  - rewrite matches_Seq. split.
    + intros [u [v [-> [Hu Hv]]]]. apply IH in Hu.
      change (String a (u +:+ v)) with (String a u +:+ v). now constructor.
    + intros Hm. apply matches_Star_cons in Hm as [u [v [-> [Hu Hv]]]].
      exists u, v. split; [reflexivity |]. split; [now apply IH | exact Hv].
Qed.

(** [prefix_match] holds exactly when a prefix of the text is in the language. *)
Lemma prefix_match_spec (r : Re.regex) (s : string) :
  Re.prefix_match ic r s = true <-> exists u v, s = u +:+ v /\ Re.matches ic r u.
Proof.
  revert r. induction s as [|a s IH]; intros r; simpl.
  - rewrite orb_false_r, nullable_spec. split.
    + intros Hm. exists "", "". auto.
    + intros [u [v [Huv Hu]]]. symmetry in Huv. apply app_eq_nil in Huv as [-> _]. exact Hu.
  - rewrite orb_true_iff, IH, nullable_spec. split.
    + intros [Hm | [u [v [-> Hu]]]].
      * exists "", (String a s). auto.
      * exists (String a u), v. rewrite app_cons. split; [reflexivity | now apply deriv_spec].
    + intros [u [v [Huv Hu]]]. destruct u as [|b u].
      * now left.
      * rewrite app_cons in Huv. injection Huv as <- ->. right.
        exists u, v. split; [reflexivity | now apply deriv_spec].
Qed.

(** [search] holds exactly when a substring of the text is in the language. *)
Lemma search_spec (r : Re.regex) (s : string) :
  Re.search ic r s = true <-> exists p u v, s = p +:+ u +:+ v /\ Re.matches ic r u.
Proof.
  induction s as [|a s IH].
  - change (Re.search ic r "") with (Re.prefix_match ic r "" || false).
    rewrite orb_false_r, prefix_match_spec. split.
    + intros [u [v [Hs Hu]]]. exists "", u, v. auto.
    + intros [p [u [v [Hs Hu]]]]. symmetry in Hs.
      apply app_eq_nil in Hs as [-> Hs]. exists u, v. auto.
  - change (Re.search ic r (String a s))
      with (Re.prefix_match ic r (String a s) || Re.search ic r s).
    rewrite orb_true_iff, IH, prefix_match_spec. split.
    + intros [[u [v [Hs Hu]]] | [p [u [v [-> Hu]]]]].
      * exists "", u, v. auto.
      * exists (String a p), u, v. rewrite app_cons. auto.
    + intros [p [u [v [Hs Hu]]]]. destruct p as [|b p].
      * left. exists u, v. auto.
      * rewrite app_cons in Hs. injection Hs as <- ->. right. exists p, u, v. auto.
Qed.

End Matcher.

(** ** The setup-statement pattern (C6) *)

Lemma in_all_ascii (a : ascii) : In a Re.all_ascii.
Proof.
  rewrite <- (ascii_nat_embedding a). apply in_map, in_seq.
  pose proof (nat_ascii_bounded a). lia.
Qed.

(** Under the [i] flag a character that is not a letter is matched only by
    itself. *)
Lemma chr_eq_nonletter (a b : ascii) :
  Re.is_letter a = false -> Ascii.eqb (Re.upper a) (Re.upper b) = true -> b = a.
Proof.
  assert (Hall : forallb (fun x => forallb (fun y =>
                   implb (negb (Re.is_letter x) && Ascii.eqb (Re.upper x) (Re.upper y))
                         (Ascii.eqb y x)) Re.all_ascii) Re.all_ascii = true)
    by (vm_compute; reflexivity).
  intros Ha Hab. rewrite forallb_forall in Hall.
  specialize (Hall a (in_all_ascii a)). rewrite forallb_forall in Hall.
  specialize (Hall b (in_all_ascii b)). rewrite Ha, Hab in Hall.
  now apply Ascii.eqb_eq.
Qed.

Lemma same_ignoring_case_refl (s : string) : Spec.same_ignoring_case s s = true.
Proof. induction s as [|a s IH]; simpl; [reflexivity |]. now rewrite Ascii.eqb_refl. Qed.

Lemma same_no_letter (t s : string) :
  Re.no_letter t = true -> Spec.same_ignoring_case t s = true -> s = t.
Proof.
  revert s. induction t as [|a t IH]; intros [|b s]; simpl; try discriminate; [reflexivity |].
  intros Hplain Hsame. apply andb_true_iff in Hplain as [Ha Ht].
  apply andb_true_iff in Hsame as [Hab Hts]. apply negb_true_iff in Ha.
  f_equal; [now apply chr_eq_nonletter | now apply IH].
Qed.

Lemma whitespace_no_letter (t : string) : t ∈ Js.whitespace -> Re.no_letter t = true.
Proof.
  assert (Hall : forallb Re.no_letter Js.whitespace = true) by (vm_compute; reflexivity).
  rewrite forallb_forall in Hall. intros Ht. apply Hall. now apply list_elem_of_In.
Qed.

Lemma matches_lit (kw s : string) :
  Re.matches true (Re.lit kw) s <-> Spec.same_ignoring_case kw s = true.
Proof.
  revert s. induction kw as [|a kw IH]; intros s; simpl.
  - rewrite matches_Eps. destruct s; split; congruence.
  - rewrite matches_Seq. split.
    + intros [u [v [-> [Hu Hv]]]]. apply matches_Chr in Hu as [b [-> Hb]].
      rewrite app_cons, app_nil_l. simpl in *. rewrite Hb. now apply IH.
    + destruct s as [|b s]; [discriminate |]. intros Hs.
      apply andb_true_iff in Hs as [Hb Hs].
      exists (String b ""), s. split; [reflexivity |].
      split; [apply matches_Chr; eauto | now apply IH].
Qed.

Lemma matches_alts (ic : bool) (rs : list Re.regex) (s : string) :
  Re.matches ic (Re.alts rs) s <-> exists r, r ∈ rs /\ Re.matches ic r s.
Proof.
  induction rs as [|r rs IH]; simpl.
  - split; [intros Hm; inversion Hm | intros [r [Hr _]]; inversion Hr].
  - rewrite matches_Alt, IH. split.
    + intros [Hm | [r' [Hr' Hm]]]; [exists r | exists r']; split; auto.
      * apply list_elem_of_here.
      * now apply list_elem_of_further.
    + intros [r' [Hr' Hm]]. apply elem_of_cons in Hr' as [-> | Hr']; eauto.
Qed.

Lemma matches_space (s : string) : Re.matches true Re.space s <-> s ∈ Js.whitespace.
Proof.
  unfold Re.space. rewrite matches_alts. split.
  - intros [r [Hr Hm]]. apply list_elem_of_fmap in Hr as [t [-> Ht]].
    apply matches_lit in Hm. apply same_no_letter in Hm; [now subst | now apply whitespace_no_letter].
  - intros Hs. exists (Re.lit s). split; [now apply list_elem_of_fmap_2 |].
    apply matches_lit, same_ignoring_case_refl.
Qed.

Lemma matches_blank (s : string) : Re.matches true (Re.Star Re.space) s <-> Spec.blank s.
Proof.
  split.
  - intros Hm. remember (Re.Star Re.space) as r eqn:Hr.
    induction Hm as [| | | | | r' | r' u v Hu _ Hv IHv]; try discriminate.
    + constructor.
    + injection Hr as ->. constructor; [now apply matches_space | now apply IHv].
  - intros Hb. induction Hb as [| t s Ht Hs IH]; [constructor |].
    constructor; [now apply matches_space | exact IH].
Qed.







Example setup_statement_indented : Re.test setupPattern "  Clear   ALL" = true.
Proof. vm_compute. reflexivity. Qed.

Example setup_statement_not_at_start : Re.test setupPattern "quietly set more off" = false.
Proof. vm_compute. reflexivity. Qed.

Example setup_statement_needs_gap : Re.test setupPattern "clearall" = false.
Proof. vm_compute. reflexivity. Qed.

Example setup_block_injected :
  prepareExecutableCode (Posix.host Posix.unlaunchable) ["describe"] "/w/a.do" 2 2 =
  "/" +:+ Js.repeat_str "*" 79 +:+ Js.nl +:+
  "* 선택된 라인 실행" +:+ Js.nl +:+
  "* 원본 파일: /w/a.do" +:+ Js.nl +:+
  "* 실행 라인: 2-2" +:+ Js.nl +:+
  "* 생성 시간: 2024. 1. 2. 오후 12:04:05" +:+ Js.nl +:+
  Js.repeat_str "*" 79 +:+ "/" +:+ Js.nl +:+ Js.nl +:+
  "* 기본 설정" +:+ Js.nl +:+ "set more off" +:+ Js.nl +:+ "capture log close" +:+ Js.nl +:+ Js.nl +:+
  "* Line 2" +:+ Js.nl +:+ "describe" +:+ Js.nl +:+ Js.nl +:+
  "* 선택된 라인 실행 완료" +:+ Js.nl +:+ "exit" +:+ Js.nl.
Proof. vm_compute. reflexivity. Qed.

(** ** The handler around a failing edit *)

(** X13.  Through the tool handler an [insert_section] aimed at an absent
    marker is answered with the section-not-found text, not thrown; the
    only change to the store is the backup copy, made before the edit was
    tried, and the script keeps its content. *)
Lemma edit_do_file_absent_marker (H : Host) (w : world) (filePath S content : string)
      (sn : SectionName) (mk : Re.pattern) (position : option string) :
  files w !! resolvePath H filePath = Some S ->
  assoc (section_key sn) sectionMarkers = Some mk ->
  (forall line, line ∈ Js.split_nl S -> Re.test mk line = false) ->
  Js.truthy filePath = true -> Js.truthy content = true ->
  let params := {| p_name := None; p_definition := None; p_label := None; p_type := None;
                   p_specification := None; p_section := Some (section_key sn);
                   p_content := Some content; p_position := position |} in
  let args := {| file_path := Some filePath; operation := Some "insert_section";
                 params := Some params |} in
  let after := callTool_edit_do_file H (Some args) w in
  after.1 = Ok ("오류 발생: " +:+ "섹션을 찾을 수 없습니다: " +:+ section_key sn) /\
  files after.2 = <[backupPathOf H filePath := S]> (files w) /\
  files after.2 !! resolvePath H filePath = Some S.
Proof.
  intros Hfile Hmk Habsent Hpath Hcontent params args after.
  set (w' := set_files (<[backupPathOf H filePath := S]> (files w)) w).
  assert (Hfile' : files w' !! resolvePath H filePath = Some S).
  { simpl. destruct (decide (backupPathOf H filePath = resolvePath H filePath)) as [Heq | Hne].
    - rewrite Heq. apply lookup_insert_eq.
    - now rewrite lookup_insert_ne. }
  assert (Hafter : after = (Ok ("오류 발생: " +:+ "섹션을 찾을 수 없습니다: " +:+ section_key sn), w')).
  { unfold after, callTool_edit_do_file, try_catch, edit_do_file, args. simpl.
    rewrite Hpath. simpl.
    unfold bind at 1, createBackup, bind at 1, Fs.copyFile. rewrite Hfile.
    unfold ret at 1. fold w'. unfold bind at 1, editSwitch. simpl.
    assert (Hsec : Js.truthy (section_key sn) = true) by (destruct sn; reflexivity).
    rewrite Hsec, Hcontent. simpl.
    now rewrite (insertSection_absent H w' filePath S Hfile' _ mk). }
  rewrite Hafter. simpl. auto.
Qed.

Example spawn_failure_still_cleans_up :
  let w := Posix.disk [("/w/a.do", "describe")] in
  let after := executeSelectedLines (Posix.host Posix.unlaunchable) "/w/a.do" 1 1 w in
  after.1 = Throw ("선택된 라인 실행 실패: Stata 실행 실패: spawn "
                   +:+ "/Applications/Stata/StataBE.app/Contents/MacOS/StataBE ENOENT") /\
  files after.2 = files w /\ console after.2 = [].
Proof. repeat split; vm_compute; reflexivity. Qed.

(** * Further properties *)

(** ** Lines of a text *)

Lemma split_nl_app (a b : string) :
  Js.split_nl (a +:+ Js.nl +:+ b) = (Js.split_nl a ++ Js.split_nl b)%list.
Proof.
  induction a as [|c a IH].
  - reflexivity.
  - rewrite app_cons. simpl Js.split_nl. destruct (Js.is_nl c).
    + now rewrite IH.
    + rewrite IH. pose proof (split_nl_nonempty a) as Hne.
      destruct (Js.split_nl a) as [|h t]; [congruence | reflexivity].
Qed.

(** Joining any lines and splitting again gives the lines of each piece. *)
Lemma split_nl_join (xs : list string) :
  xs <> [] -> Js.split_nl (Js.join Js.nl xs) = concat (map Js.split_nl xs).
Proof.
  induction xs as [|x xs IH]; [congruence |]. intros _.
  destruct xs as [|y xs].
  - simpl. symmetry. apply List.app_nil_r.
  - rewrite join_cons, split_nl_app, IH by discriminate. reflexivity.
Qed.

(** A line produced by [split] is a single line. *)
Lemma split_nl_single (s line : string) :
  line ∈ Js.split_nl s -> Js.split_nl line = [line].
Proof.
  revert line. induction s as [|a s IH]; intros line Hin.
  - apply list_elem_of_singleton in Hin. now subst.
  - simpl in Hin. destruct (Js.is_nl a) eqn:Ha.
    + apply elem_of_cons in Hin as [-> | Hin]; [reflexivity | now apply IH].
    + pose proof (split_nl_nonempty s) as Hne.
      destruct (Js.split_nl s) as [|h t] eqn:Hs; [congruence |].
      apply elem_of_cons in Hin as [-> | Hin].
      * simpl. rewrite Ha. rewrite (IH h (list_elem_of_here _ _)). reflexivity.
      * apply IH. now apply list_elem_of_further.
Qed.

Lemma concat_split_single (xs : list string) :
  (forall x, x ∈ xs -> Js.split_nl x = [x]) -> concat (map Js.split_nl xs) = xs.
Proof.
  induction xs as [|x xs IH]; intros Hall; [reflexivity |].
  simpl. rewrite (Hall x (list_elem_of_here _ _)). simpl. f_equal.
  apply IH. intros y Hy. apply Hall. now apply list_elem_of_further.
Qed.

(** X1.  Splitting a text at newlines and joining the lines with newlines
    are inverse to each other: joining the lines of a text gives the text
    back byte for byte, and splitting the join of lines that are each a
    single line gives those lines back. *)
Theorem lines_round_trip (s : string) (xs : list string) :
  Js.join Js.nl (Js.split_nl s) = s /\
  (xs <> [] -> (forall x, x ∈ xs -> Js.split_nl x = [x]) ->
   Js.split_nl (Js.join Js.nl xs) = xs).
Proof.
  split; [apply join_split_nl |].
  intros Hne Hall. rewrite split_nl_join by exact Hne. now apply concat_split_single.
Qed.

Lemma lines_round_trip_witness :
  Js.split_nl (Js.join Js.nl ["summarize"; "describe"]) = ["summarize"; "describe"].
Proof.
  apply (proj2 (lines_round_trip "" ["summarize"; "describe"])).
  - discriminate.
  - intros x Hx. repeat (apply elem_of_cons in Hx as [-> | Hx]; [reflexivity |]).
    inversion Hx.
Defined.

(** ** More on the section editor *)

Lemma insertIndexOf_bounds (lines : list string) (m : nat) (position : string) :
  (m < length lines)%nat ->
  (m <= insertIndexOf lines m position <= length lines)%nat.
Proof.
  intros Hm. unfold insertIndexOf. destruct (String.eqb position "after"); [| lia].
  destruct (advance_spec (drop (m + 1) lines) (m + 1)) as [Hrange _].
  rewrite length_drop in Hrange. lia.
Qed.

(** X2.  Whenever the marker is found, [insertSection] succeeds, changes no
    file but the script, and the new script read back as lines is the old
    lines with a blank line, the lines of the content and another blank
    line put in at one index at or after the marker: every original line
    is kept, in order. *)
Theorem insertion_keeps_lines (H : Host) (w : world) (filePath S content name : string)
        (mk : Re.pattern) (position : option string) (m : nat) :
  files w !! resolvePath H filePath = Some S ->
  assoc name sectionMarkers = Some mk ->
  Js.findIndex (Re.test mk) (Js.split_nl S) = Some m ->
  exists (k : nat) (text : string),
    (m <= k <= length (Js.split_nl S))%nat /\
    insertSection H filePath name content position w
      = (Ok tt, set_files (<[resolvePath H filePath := text]> (files w)) w) /\
    Js.split_nl text =
      (take k (Js.split_nl S) ++ "" :: Js.split_nl content ++ "" :: drop k (Js.split_nl S))%list.
Proof.
  intros Hfile Hmk Hm. set (lines := Js.split_nl S).
  destruct (findIndex_Some _ _ _ Hm) as [[x [Hx _]] _].
  apply lookup_lt_Some in Hx. fold lines in Hx.
  set (k := insertIndexOf lines m (default "after" position)).
  exists k, (Js.join Js.nl (Js.splice_insert lines k [""; content; ""])).
  split; [now apply insertIndexOf_bounds |].
  split; [exact (insertSection_present H w filePath S Hfile name mk content position m Hmk Hm) |].
  unfold Js.splice_insert. rewrite split_nl_join.
  - rewrite !map_app, !concat_app. simpl. rewrite <- List.app_assoc. simpl.
    rewrite !concat_split_single; [reflexivity | |].
    + intros y Hy. apply (split_nl_single S). now apply (subseteq_drop k lines).
    + intros y Hy. apply (split_nl_single S). now apply (subseteq_take k lines).
  - destruct (take k lines); discriminate.
Qed.

Lemma insertion_keeps_lines_witness :
  exists (k : nat) (text : string),
    (0 <= k <= length (Js.split_nl ("* 주요 분석" +:+ Js.nl +:+ "summarize")))%nat /\
    insertSection (Posix.host Posix.unlaunchable) "/w/a.do" "analysis"
                  ("regress y x" +:+ Js.nl +:+ "predict yhat") None
                  (Posix.disk [("/w/a.do", "* 주요 분석" +:+ Js.nl +:+ "summarize")])
      = (Ok tt,
         set_files (<[resolvePath (Posix.host Posix.unlaunchable) "/w/a.do" := text]>
                      (files (Posix.disk [("/w/a.do", "* 주요 분석" +:+ Js.nl +:+ "summarize")])))
                   (Posix.disk [("/w/a.do", "* 주요 분석" +:+ Js.nl +:+ "summarize")])) /\
    Js.split_nl text =
      (take k (Js.split_nl ("* 주요 분석" +:+ Js.nl +:+ "summarize"))
       ++ "" :: Js.split_nl ("regress y x" +:+ Js.nl +:+ "predict yhat")
       ++ "" :: drop k (Js.split_nl ("* 주요 분석" +:+ Js.nl +:+ "summarize")))%list.
Proof.
  apply (insertion_keeps_lines (Posix.host Posix.unlaunchable)
           (Posix.disk [("/w/a.do", "* 주요 분석" +:+ Js.nl +:+ "summarize")])
           "/w/a.do" ("* 주요 분석" +:+ Js.nl +:+ "summarize")
           ("regress y x" +:+ Js.nl +:+ "predict yhat") "analysis"
           (marker "주요 분석") None 0%nat).
  - vm_compute. reflexivity.
  - reflexivity.
  - vm_compute. reflexivity.
Defined.

(** X3.  With any position other than ['after'] the block goes immediately
    before the first line that matches the marker: that line follows the
    block, and no line above the block matches. *)
Theorem insert_before_placement (H : Host) (w : world) (filePath S content name : string)
        (mk : Re.pattern) (position : string) (m : nat) :
  files w !! resolvePath H filePath = Some S ->
  assoc name sectionMarkers = Some mk ->
  Js.findIndex (Re.test mk) (Js.split_nl S) = Some m ->
  position <> "after" ->
  exists (above below : list string) (markerLine : string),
    Js.split_nl S = (above ++ markerLine :: below)%list /\
    length above = m /\
    Re.test mk markerLine = true /\
    (forall line, line ∈ above -> Re.test mk line = false) /\
    insertSection H filePath name content (Some position) w
      = (Ok tt,
         set_files
           (<[resolvePath H filePath :=
                Js.join Js.nl (above ++ [""; content; ""] ++ markerLine :: below)%list]>
              (files w)) w).
Proof.
  intros Hfile Hmk Hm Hpos. set (lines := Js.split_nl S).
  destruct (findIndex_Some _ _ _ Hm) as [[x [Hx Htest]] Hbefore]. fold lines in Hx, Hbefore.
  exists (take m lines), (drop (Datatypes.S m) lines), x.
  assert (Hsplit : lines = (take m lines ++ x :: drop (Datatypes.S m) lines)%list)
    by (symmetry; now apply take_drop_middle).
  split; [exact Hsplit |].
  split; [apply length_take_le; apply lookup_lt_Some in Hx; lia |].
  split; [exact Htest |]. split.
  - intros line Hin. apply list_elem_of_lookup in Hin as [j Hj].
    apply lookup_take_Some in Hj as [Hj Hlt]. now apply (Hbefore j).
  - rewrite (insertSection_present H w filePath S Hfile name mk content (Some position) m Hmk Hm).
    unfold insertIndexOf. simpl default. rewrite (eqb_false_of_ne _ _ Hpos).
    unfold Js.splice_insert. fold lines.
    now rewrite (drop_S lines x m Hx).
Qed.

Lemma insert_before_placement_witness :
  exists (above below : list string) (markerLine : string),
    Js.split_nl ("describe" +:+ Js.nl +:+ "* 주요 분석") = (above ++ markerLine :: below)%list /\
    length above = 1%nat /\
    Re.test (marker "주요 분석") markerLine = true /\
    (forall line, line ∈ above -> Re.test (marker "주요 분석") line = false) /\
    insertSection (Posix.host Posix.unlaunchable) "/w/a.do" "analysis" "regress y x"
                  (Some "before")
                  (Posix.disk [("/w/a.do", "describe" +:+ Js.nl +:+ "* 주요 분석")])
      = (Ok tt,
         set_files
           (<[resolvePath (Posix.host Posix.unlaunchable) "/w/a.do" :=
                Js.join Js.nl (above ++ [""; "regress y x"; ""] ++ markerLine :: below)%list]>
              (files (Posix.disk [("/w/a.do", "describe" +:+ Js.nl +:+ "* 주요 분석")])))
           (Posix.disk [("/w/a.do", "describe" +:+ Js.nl +:+ "* 주요 분석")])).
Proof.
  apply (insert_before_placement (Posix.host Posix.unlaunchable)
           (Posix.disk [("/w/a.do", "describe" +:+ Js.nl +:+ "* 주요 분석")])
           "/w/a.do" ("describe" +:+ Js.nl +:+ "* 주요 분석") "regress y x" "analysis"
           (marker "주요 분석") "before" 1%nat).
  - vm_compute. reflexivity.
  - reflexivity.
  - vm_compute. reflexivity.
  - discriminate.
Defined.

(** ** What the section markers match *)

Lemma chr_star (b : ascii) : Re.chr_eq true "*" b = true <-> b = "*"%char.
Proof.
  split; [| intros ->; reflexivity].
  intros Hb. now apply (chr_eq_nonletter "*" b).
Qed.

Lemma matches_comment_title (text u : string) :
  Re.no_letter text = true ->
  Re.matches true (Re.Seq (Re.Chr "*") (Re.Seq (Re.Star Re.space) (Re.lit text))) u <->
  exists ws, Spec.blank ws /\ u = "*" +:+ ws +:+ text.
Proof.
  intros Htext. rewrite matches_Seq. split.
  - intros [a [x [-> [Ha Hx]]]]. apply matches_Chr in Ha as [b [-> Hb]].
    apply chr_star in Hb. subst b.
    apply matches_Seq in Hx as [ws [t [-> [Hws Ht]]]].
    apply matches_blank in Hws. apply matches_lit in Ht.
    apply same_no_letter in Ht; [| exact Htext]. subst t. eauto.
  - intros [ws [Hws ->]]. exists "*", (ws +:+ text). split; [reflexivity |].
    split; [apply matches_Chr; exists "*"%char; auto |].
    apply matches_Seq. exists ws, text. split; [reflexivity |].
    split; [now apply matches_blank | apply matches_lit, same_ignoring_case_refl].
Qed.

(** X4.  A marker [/\*\s*title/i] whose title has no Latin letter matches a
    line exactly when the line contains, anywhere, an asterisk, then any
    run of whitespace, then the title: the asterisk need not be the first
    character of the line. *)
Theorem marker_matches_iff (title line : string) :
  Re.no_letter title = true ->
  (Re.test (marker title) line = true <->
   exists before ws after,
     Spec.blank ws /\ line = before +:+ "*" +:+ ws +:+ title +:+ after).
Proof.
  intros Htitle.
  change (Re.test (marker title) line)
    with (Re.search true (Re.Seq (Re.Chr "*") (Re.Seq (Re.Star Re.space) (Re.lit title))) line).
  rewrite search_spec. split.
  - intros [p [u [v [-> Hu]]]]. apply matches_comment_title in Hu as [ws [Hws ->]]; [| exact Htitle].
    exists p, ws, v. split; [exact Hws |]. now rewrite !app_assoc.
  - intros [p [ws [v [Hws ->]]]]. exists p, ("*" +:+ ws +:+ title), v.
    split; [now rewrite !app_assoc |]. apply matches_comment_title; eauto.
Qed.

Lemma marker_matches_iff_witness :
  Re.test (marker "주요 분석") "summarize // *  주요 분석 (main)" = true <->
  exists before ws after,
    Spec.blank ws /\
    "summarize // *  주요 분석 (main)" = before +:+ "*" +:+ ws +:+ "주요 분석" +:+ after.
Proof.
  apply (marker_matches_iff "주요 분석" "summarize // *  주요 분석 (main)").
  reflexivity.
Defined.

(** X5.  The marker of [preprocessing], [/\*\s*변수 생성|전처리/i], is an
    alternation of two whole patterns: it matches a line that contains an
    asterisk, whitespace and [변수 생성], and also any line that contains
    [전처리] anywhere, with or without an asterisk. *)
Theorem preprocessing_marker_matches_iff (mk : Re.pattern) (line : string) :
  assoc "preprocessing" sectionMarkers = Some mk ->
  (Re.test mk line = true <->
   (exists before ws after,
      Spec.blank ws /\ line = before +:+ "*" +:+ ws +:+ "변수 생성" +:+ after) \/
   (exists before after, line = before +:+ "전처리" +:+ after)).
Proof.
  intros [= <-].
  change (Re.test _ line)
    with (Re.search true
            (Re.Alt (Re.Seq (Re.Chr "*") (Re.Seq (Re.Star Re.space) (Re.lit "변수 생성")))
                    (Re.lit "전처리")) line).
  rewrite search_spec. split.
  - intros [p [u [v [-> Hu]]]]. apply matches_Alt in Hu as [Hu | Hu].
    + left. apply matches_comment_title in Hu as [ws [Hws ->]]; [| reflexivity].
      exists p, ws, v. split; [exact Hws |]. now rewrite !app_assoc.
    + right. apply matches_lit in Hu. apply same_no_letter in Hu; [| reflexivity].
      subst u. eauto.
  - intros [[p [ws [v [Hws ->]]]] | [p [v ->]]].
    + exists p, ("*" +:+ ws +:+ "변수 생성"), v. split; [now rewrite !app_assoc |].
      apply Re.m_alt_l. apply matches_comment_title; [reflexivity | eauto].
    + exists p, "전처리", v. split; [reflexivity |].
      apply Re.m_alt_r. apply matches_lit, same_ignoring_case_refl.
Qed.

Lemma preprocessing_marker_matches_iff_witness :
  Re.test (Re.Pattern false
             (Re.Alt (Re.Seq (Re.Chr "*") (Re.Seq (Re.Star Re.space) (Re.lit "변수 생성")))
                     (Re.lit "전처리")) true)
          "use 전처리_data.dta" = true <->
  (exists before ws after,
     Spec.blank ws /\ "use 전처리_data.dta" = before +:+ "*" +:+ ws +:+ "변수 생성" +:+ after) \/
  (exists before after, "use 전처리_data.dta" = before +:+ "전처리" +:+ after).
Proof.
  apply (preprocessing_marker_matches_iff _ "use 전처리_data.dta"). reflexivity.
Defined.

Example preprocessing_marker_without_asterisk :
  Js.findIndex (Re.test (default (marker "") (assoc "preprocessing" sectionMarkers)))
               ["use 전처리_data.dta"; "* 변수 생성 및 전처리"] = Some 0%nat.
Proof. vm_compute. reflexivity. Qed.

(** ** Timestamps and log paths *)

(** X6.  The timestamp put into backup and ephemeral file names has the
    length of the ISO reading and no colon and no dot in it, and a reading
    that has neither is left as it is. *)
Theorem timestamp_has_no_colon_or_dot (iso : string) :
  String.length (Js.dash_colons_dots iso) = String.length iso /\
  Str.lacks ":" (Js.dash_colons_dots iso) = true /\
  Str.lacks "." (Js.dash_colons_dots iso) = true /\
  (Str.lacks ":" iso = true -> Str.lacks "." iso = true -> Js.dash_colons_dots iso = iso).
Proof.
  induction iso as [|a iso [IHlen [IHcolon [IHdot IHid]]]]; [repeat split |].
  simpl. rewrite IHlen, IHcolon, IHdot.
  destruct (Ascii.eqb a ":") eqn:Hc; [simpl; repeat split; intros; discriminate |].
  destruct (Ascii.eqb a ".") eqn:Hd; [simpl; repeat split; intros; discriminate |].
  simpl. rewrite Hc, Hd. repeat split. intros Hcolon Hdot. now rewrite IHid.
Qed.

Lemma timestamp_has_no_colon_or_dot_witness :
  Js.dash_colons_dots "2024-01-02T03-04-05-678Z" = "2024-01-02T03-04-05-678Z".
Proof.
  apply (proj2 (proj2 (proj2 (timestamp_has_no_colon_or_dot "2024-01-02T03-04-05-678Z"))));
    reflexivity.
Defined.

Lemma substring_all (s : string) (n : nat) :
  (String.length s <= n)%nat -> String.substring 0 n s = s.
Proof.
  revert n. induction s as [|a s IH]; intros n Hn; [now destruct n |].
  destruct n as [|n]; simpl in *; [lia |]. rewrite IH by lia. reflexivity.
Qed.

Lemma startsWith_cons (a b : ascii) (p s : string) :
  Js.startsWith (String a p) (String b s) = Ascii.eqb a b && Js.startsWith p s.
Proof. reflexivity. Qed.

Lemma startsWith_app (pat rest : string) : Js.startsWith pat (pat +:+ rest) = true.
Proof.
  induction pat as [|a pat IH]; [reflexivity |].
  rewrite app_cons, startsWith_cons. now rewrite Ascii.eqb_refl, IH.
Qed.

Lemma substring_skip (pat rest : string) (n : nat) :
  String.substring (String.length pat) n (pat +:+ rest) = String.substring 0 n rest.
Proof.
  induction pat as [|a pat IH]; [reflexivity |]. rewrite app_cons. simpl. exact IH.
Qed.

Lemma replace_first_here (pat by_ rest : string) :
  Js.replace_first pat by_ (pat +:+ rest) = by_ +:+ rest.
Proof.
  assert (Hunfold : forall s, Js.replace_first pat by_ s =
            if Js.startsWith pat s
            then by_ +:+ String.substring (String.length pat) (String.length s) s
            else match s with
                 | EmptyString => EmptyString
                 | String a r => String a (Js.replace_first pat by_ r)
                 end) by (intros []; reflexivity).
  rewrite Hunfold, startsWith_app, substring_skip, substring_all; [reflexivity |].
  rewrite length_app. lia.
Qed.

Lemma replace_first_skip (pat by_ : string) (a : ascii) (s : string) :
  Js.startsWith pat (String a s) = false ->
  Js.replace_first pat by_ (String a s) = String a (Js.replace_first pat by_ s).
Proof.
  intros Hs.
  change (Js.replace_first pat by_ (String a s))
    with (if Js.startsWith pat (String a s)
          then by_ +:+ String.substring (String.length pat) (String.length (String a s))
                                        (String a s)
          else String a (Js.replace_first pat by_ s)).
  now rewrite Hs.
Qed.

(** X7.  The log path is the script path with its first [.do] turned into
    [.log], whatever follows it: when the text before that [.do] has no
    dot, the rest of the path is kept as it is, a later [.do] included. *)
Theorem logPathOf_first_occurrence (base rest : string) :
  Str.lacks "." base = true ->
  logPathOf (base +:+ ".do" +:+ rest) = base +:+ ".log" +:+ rest.
Proof.
  intros Hbase. unfold logPathOf. induction base as [|a base IH].
  - rewrite !app_nil_l. apply replace_first_here.
  - simpl in Hbase. apply andb_true_iff in Hbase as [Ha Hbase].
    rewrite !(app_cons a base). rewrite replace_first_skip.
    + now rewrite IH.
    + change ".do" with (String "." "do"). rewrite startsWith_cons.
      apply negb_true_iff in Ha. rewrite Ascii.eqb_sym, Ha. reflexivity.
Qed.

Lemma logPathOf_first_occurrence_witness :
  logPathOf ("/home/me/stata" +:+ ".do" +:+ "cs/run.do") = "/home/me/stata" +:+ ".log" +:+ "cs/run.do".
Proof.
  apply (logPathOf_first_occurrence "/home/me/stata" "cs/run.do").
  reflexivity.
Defined.

Lemma replace_first_absent (pat by_ s : string) :
  Str.includes pat s = false -> Js.replace_first pat by_ s = s.
Proof.
  induction s as [|a s IH]; intros Hs.
  - change (Str.includes pat "") with (Js.startsWith pat "" || false) in Hs.
    apply orb_false_elim in Hs as [Hs _].
    change (Js.replace_first pat by_ "")
      with (if Js.startsWith pat "" then by_ +:+ String.substring (String.length pat) 0 ""
            else "").
    now rewrite Hs.
  - change (Str.includes pat (String a s))
      with (Js.startsWith pat (String a s) || Str.includes pat s) in Hs.
    apply orb_false_elim in Hs as [Hs Hrest].
    rewrite replace_first_skip by exact Hs. now rewrite IH.
Qed.

(** ** More on running the interpreter *)

(** X8.  A script path with no [.do] in it is its own log path.  When the
    interpreter exits and leaves that file in place with a non-empty
    content, the output of the run is the text of the script itself. *)
Theorem run_without_do_reads_script (H : Host) (doFilePath : string) (w : world)
        (code : option Z) (out err text : string) (store : gmap string string) :
  Str.includes ".do" doFilePath = false ->
  interpreter H (stataPath H) (batchArgs H doFilePath) (path_dirname H doFilePath) (files w)
    = Closed code out err store ->
  store !! doFilePath = Some text ->
  Js.truthy text = true ->
  logPathOf doFilePath = doFilePath /\
  (executeDoFile H doFilePath w).1 =
    Ok {| success := code_is_zero code; output := text; logPath := doFilePath |}.
Proof.
  intros Hno Hrun Hstore Htext.
  assert (Hlog : logPathOf doFilePath = doFilePath) by now apply replace_first_absent.
  split; [exact Hlog |].
  rewrite (executeDoFile_closed H doFilePath w code out err store Hrun).
  rewrite Hlog, Hstore. unfold Js.or_else. now rewrite Htext.
Qed.

Lemma run_without_do_reads_script_witness :
  logPathOf "/w/analysis.txt" = "/w/analysis.txt" /\
  (executeDoFile (Posix.host (Posix.writes_nothing 0 "" "")) "/w/analysis.txt"
                 (Posix.disk [("/w/analysis.txt", "describe")])).1 =
    Ok {| success := code_is_zero (Some 0%Z); output := "describe";
          logPath := "/w/analysis.txt" |}.
Proof.
  apply (run_without_do_reads_script (Posix.host (Posix.writes_nothing 0 "" ""))
           "/w/analysis.txt" (Posix.disk [("/w/analysis.txt", "describe")])
           (Some 0%Z) "" "" "describe"
           (files (Posix.disk [("/w/analysis.txt", "describe")]))).
  - reflexivity.
  - reflexivity.
  - vm_compute. reflexivity.
  - reflexivity.
Defined.

(** X9.  [executeDoFile] launches the interpreter exactly once, with the
    batch flag [-b] on [darwin] and [/e] on every other platform, followed
    by [do] and the script path.  It writes nothing to the console and no
    file of its own: the store afterwards is the one the interpreter left,
    or the one before when the launch failed. *)
Theorem executeDoFile_effects (H : Host) (doFilePath : string) (w : world) :
  let after := (executeDoFile H doFilePath w).2 in
  let flag := if String.eqb (platform H) "darwin" then "-b" else "/e" in
  launched after = (launched w ++ [(stataPath H, [flag; "do"; doFilePath])])%list /\
  console after = console w /\
  undeletable after = undeletable w /\
  files after =
    match interpreter H (stataPath H) [flag; "do"; doFilePath]
                      (path_dirname H doFilePath) (files w) with
    | SpawnError _ => files w
    | Closed _ _ _ store => store
    end.
Proof.
  cbv zeta. rewrite executeDoFile_world. unfold batchArgs.
  destruct (String.eqb (platform H) "darwin"); simpl; auto.
Qed.

(** ** More on the selective executor *)

Lemma cleanup_exact (temp : string) (w : world) :
  is_Some (files w !! temp) -> temp ∉ undeletable w -> logPathOf temp ∉ undeletable w ->
  (cleanup temp w).2 = set_files (delete (logPathOf temp) (delete temp (files w))) w.
Proof.
  intros [c Hc] Htemp Hlog.
  unfold cleanup, try_catch, bind, Fs.unlink. rewrite Hc.
  destruct (decide (temp ∈ undeletable w)) as [Hin | _]; [contradiction |].
  simpl. fold (logPathOf temp).
  destruct (delete temp (files w) !! logPathOf temp) as [l|] eqn:Hl.
  - destruct (decide (logPathOf temp ∈ undeletable w)) as [Hin | _]; [contradiction |].
    reflexivity.
  - simpl. unfold set_files. simpl. now rewrite (delete_id _ _ Hl).
Qed.



(** X11.  A validated call leaves no trace in the store when: the paths of
    the ephemeral script and of its log are free before the call, the
    system does not refuse their deletion, the ephemeral script is still
    there when the run ends, and the run changes no other file.  The store
    after the call is then the store before it, and the console is
    untouched; this covers a failed launch as well as a completed run. *)
Theorem selected_run_leaves_no_trace (H : Host) (w : world) (filePath content : string)
        (startLine endLine : Z) :
  files w !! filePath = Some content ->
  (1 <= startLine /\ startLine <= endLine /\
   endLine <= Z.of_nat (length (Js.split_nl content)))%Z ->
  let temp := tempFilePathOf H filePath startLine endLine in
  let atCleanup := storeAtCleanup H w filePath content startLine endLine in
  files w !! temp = None -> files w !! logPathOf temp = None ->
  temp ∉ undeletable w -> logPathOf temp ∉ undeletable w ->
  is_Some (atCleanup !! temp) ->
  (forall p, p <> temp -> p <> logPathOf temp -> atCleanup !! p = files w !! p) ->
  let after := executeSelectedLines H filePath startLine endLine w in
  files after.2 = files w /\ console after.2 = console w.
Proof.
  intros Hfile Hrange temp atCleanup Hfresh Hfreshlog Htemp Hlog Hpresent Hother after.
  pose proof (executeSelectedLines_valid H w filePath content startLine endLine Hfile Hrange)
    as Hcall.
  cbv zeta in Hcall. fold temp in Hcall. fold after in Hcall.
  set (script := prepareExecutableCode H _ filePath startLine endLine) in *.
  set (w1 := set_files (<[temp:=script]> (files w)) w) in *.
  pose proof (executeDoFile_world H temp w1) as Hworld.
  assert (Hstore : atCleanup =
                   match interpreter H (stataPath H) (batchArgs H temp)
                                     (path_dirname H temp) (files w1) with
                   | SpawnError _ => files w1
                   | Closed _ _ _ store => store
                   end) by reflexivity.
  rewrite <- Hstore in Hworld.
  destruct (executeDoFile H temp w1) as [r w2]. simpl in Hworld. subst w2.
  rewrite Hcall. simpl. rewrite cleanup_exact by assumption. simpl.
  split; [| reflexivity].
  apply map_eq. intros p.
  destruct (decide (p = logPathOf temp)) as [-> | Hp1]; [now rewrite lookup_delete_eq |].
  rewrite lookup_delete_ne by congruence.
  destruct (decide (p = temp)) as [-> | Hp2]; [now rewrite lookup_delete_eq |].
  rewrite lookup_delete_ne by congruence. now apply Hother.
Qed.

Lemma selected_run_leaves_no_trace_witness :
  let h := Posix.host (Posix.writes_log 0 "ran fine") in
  let w := Posix.disk [("/w/a.do", "describe")] in
  let after := executeSelectedLines h "/w/a.do" 1 1 w in
  files after.2 = files w /\ console after.2 = console w.
Proof.
  apply (selected_run_leaves_no_trace (Posix.host (Posix.writes_log 0 "ran fine"))
           (Posix.disk [("/w/a.do", "describe")]) "/w/a.do" "describe" 1 1).
  - vm_compute. reflexivity.
  - vm_compute. repeat split; discriminate.
  - vm_compute. reflexivity.
  - vm_compute. reflexivity.
  - vm_compute. set_solver.
  - vm_compute. set_solver.
  - eexists. vm_compute. reflexivity.
  - intros p Htemp Hlog.
    change (storeAtCleanup (Posix.host (Posix.writes_log 0 "ran fine"))
              (Posix.disk [("/w/a.do", "describe")]) "/w/a.do" "describe" 1 1)
      with (<[logPathOf (tempFilePathOf (Posix.host (Posix.writes_log 0 "ran fine"))
                           "/w/a.do" 1 1) := "ran fine"]>
              (<[tempFilePathOf (Posix.host (Posix.writes_log 0 "ran fine")) "/w/a.do" 1 1 :=
                   prepareExecutableCode (Posix.host (Posix.writes_log 0 "ran fine"))
                     (Js.slice (Js.split_nl "describe") (1 - 1) 1) "/w/a.do" 1 1]>
                 (files (Posix.disk [("/w/a.do", "describe")])))).
    rewrite lookup_insert_ne by congruence. now rewrite lookup_insert_ne by congruence.
Defined.

(** ** The body of the ephemeral script *)

Lemma single_line_cons (a : ascii) (s : string) :
  Js.is_nl a = false -> Js.split_nl s = [s] -> Js.split_nl (String a s) = [String a s].
Proof. intros Ha Hs. simpl. now rewrite Ha, Hs. Qed.

Lemma single_line_app (s t : string) :
  Js.split_nl s = [s] -> Js.split_nl t = [t] -> Js.split_nl (s +:+ t) = [s +:+ t].
Proof.
  intros Hs Ht. induction s as [|a s IH]; [exact Ht |].
  rewrite app_cons. simpl in Hs. destruct (Js.is_nl a) eqn:Ha; [discriminate |].
  pose proof (split_nl_nonempty s) as Hne.
  destruct (Js.split_nl s) as [|h t'] eqn:Hsplit; [congruence |].
  injection Hs as -> ->.
  apply single_line_cons; [exact Ha | now apply IH].
Qed.

Lemma single_line_uint (d : Decimal.uint) :
  Js.split_nl (NilEmpty.string_of_uint d) = [NilEmpty.string_of_uint d].
Proof.
  induction d; simpl NilEmpty.string_of_uint; [reflexivity | ..];
    (apply single_line_cons; [reflexivity | assumption]).
Qed.

Lemma single_line_of_Z (z : Z) : Js.split_nl (Js.of_Z z) = [Js.of_Z z].
Proof.
  assert (Hu : forall d, Js.split_nl (NilZero.string_of_uint d) = [NilZero.string_of_uint d]).
  { intros d. pose proof (single_line_uint d) as Hd. destruct d; [reflexivity | exact Hd ..]. }
  unfold Js.of_Z, NilZero.string_of_int.
  destruct (Z.to_int z) as [d | d]; [apply Hu |].
  apply single_line_cons; [reflexivity | apply Hu].
Qed.

Lemma split_processedLine (startLine : Z) (index : nat) (line : string) :
  Js.split_nl line = [line] ->
  Js.split_nl (processedLine startLine index line) =
    ["* Line " +:+ Js.of_Z (startLine + Z.of_nat index); line].
Proof.
  intros Hline. unfold processedLine.
  replace ("* Line " +:+ Js.of_Z (startLine + Z.of_nat index) +:+ Js.nl +:+ line)
    with (("* Line " +:+ Js.of_Z (startLine + Z.of_nat index)) +:+ Js.nl +:+ line)
    by now rewrite app_assoc.
  rewrite split_nl_app, Hline.
  rewrite (single_line_app "* Line " _ eq_refl (single_line_of_Z _)). reflexivity.
Qed.

Lemma concat_split_imap (f : nat -> string -> string) (g : nat -> string -> list string)
      (xs : list string) :
  (forall k x, x ∈ xs -> Js.split_nl (f k x) = g k x) ->
  concat (map Js.split_nl (imap f xs)) = concat (imap g xs).
Proof.
  revert f g. induction xs as [|x xs IH]; intros f g Hfg; [reflexivity |].
  simpl. rewrite (Hfg 0%nat x (list_elem_of_here _ _)). f_equal.
  apply IH. intros k y Hy. apply Hfg. now apply list_elem_of_further.
Qed.

(** X12.  For a non-empty selection of single lines, the body of the
    ephemeral script, read as lines, is each selected line preceded by the
    comment [* Line n] with [n] its line number in the source: the body has
    twice as many lines as the selection, and every second one is a
    selected line, verbatim and in order. *)
Theorem script_body_lines (selectedLines : list string) (startLine : Z) :
  selectedLines <> [] ->
  (forall line, line ∈ selectedLines -> Js.split_nl line = [line]) ->
  Js.split_nl (processedLines selectedLines startLine) = taggedLines startLine selectedLines /\
  length (taggedLines startLine selectedLines) = (2 * length selectedLines)%nat.
Proof.
  intros Hne Hsingle. split.
  - unfold processedLines, taggedLines. rewrite split_nl_join.
    + apply concat_split_imap. intros k x Hx. apply split_processedLine. now apply Hsingle.
    + destruct selectedLines; [congruence | discriminate].
  - unfold taggedLines.
    assert (Hlen : forall (tag : nat -> string -> list string) (xs : list string),
               (forall k x, length (tag k x) = 2%nat) ->
               length (concat (imap tag xs)) = (2 * length xs)%nat).
    { intros tag xs. revert tag. induction xs as [|x xs IH]; intros tag Htag; [reflexivity |].
      simpl. rewrite List.length_app, Htag, IH; [lia |]. intros k y. apply Htag. }
    apply Hlen. intros k x. reflexivity.
Qed.

Lemma script_body_lines_witness :
  Js.split_nl (processedLines ["use data"; "summarize"] 2) = taggedLines 2 ["use data"; "summarize"] /\
  length (taggedLines 2 ["use data"; "summarize"]) = (2 * length ["use data"; "summarize"])%nat.
Proof.
  apply (script_body_lines ["use data"; "summarize"] 2).
  - discriminate.
  - intros line Hline.
    repeat (apply elem_of_cons in Hline as [-> | Hline]; [reflexivity |]). inversion Hline.
Defined.

(** ** More on the tool handler *)

Section Backup.

Variable H : Host.
Variables (w : world) (filePath S : string).
Hypothesis Hfile : files w !! resolvePath H filePath = Some S.

Lemma createBackup_ok :
  createBackup H filePath w
    = (Ok (backupPathOf H filePath),
       set_files (<[backupPathOf H filePath := S]> (files w)) w).
Proof. unfold createBackup, bind, Fs.copyFile. now rewrite Hfile. Qed.

Lemma backup_keeps_script :
  (<[backupPathOf H filePath := S]> (files w)) !! resolvePath H filePath = Some S.
Proof.
  destruct (decide (backupPathOf H filePath = resolvePath H filePath)) as [Heq | Hne].
  - rewrite Heq. apply lookup_insert_eq.
  - now rewrite lookup_insert_ne.
Qed.

End Backup.

Lemma edit_do_file_absent_marker_witness :
  let h := Posix.host Posix.unlaunchable in
  let w := Posix.disk [("/w/a.do", "describe")] in
  let params := {| p_name := None; p_definition := None; p_label := None; p_type := None;
                   p_specification := None; p_section := Some (section_key sec_analysis);
                   p_content := Some "regress y x"; p_position := None |} in
  let args := {| file_path := Some "a.do"; operation := Some "insert_section";
                 params := Some params |} in
  let after := callTool_edit_do_file h (Some args) w in
  after.1 = Ok ("오류 발생: " +:+ "섹션을 찾을 수 없습니다: " +:+ section_key sec_analysis) /\
  files after.2 = <[backupPathOf h "a.do" := "describe"]> (files w) /\
  files after.2 !! resolvePath h "a.do" = Some "describe".
Proof.
  apply (edit_do_file_absent_marker (Posix.host Posix.unlaunchable)
           (Posix.disk [("/w/a.do", "describe")]) "a.do" "describe" "regress y x"
           sec_analysis (marker "주요 분석") None).
  - vm_compute. reflexivity.
  - reflexivity.
  - apply findIndex_None. vm_compute. reflexivity.
  - reflexivity.
  - reflexivity.
Defined.



(** X15.  A valid [add_variable] on a script that has the [preprocessing]
    marker answers with the confirmation carrying the new script.  The new
    script is the old lines with, put in after the marker, a blank line, the
    block and a blank line; the block is the comment naming the variable,
    the definition, and a third line that is the label statement when a
    non-empty label is given and is empty otherwise.  The store then holds
    the backup with the old content and the script with the new one. *)
Theorem add_variable_reply (H : Host) (w : world) (filePath S varName definition : string)
        (label : option string) (mk : Re.pattern) (m : nat) :
  files w !! resolvePath H filePath = Some S ->
  Js.truthy filePath = true -> Js.truthy varName = true -> Js.truthy definition = true ->
  assoc "preprocessing" sectionMarkers = Some mk ->
  Js.findIndex (Re.test mk) (Js.split_nl S) = Some m ->
  let params := {| p_name := Some varName; p_definition := Some definition; p_label := label;
                   p_type := None; p_specification := None; p_section := None;
                   p_content := None; p_position := None |} in
  let labelLine := if Js.truthy_opt label
                   then "label variable " +:+ varName +:+ " " +:+ Js.dquote +:+
                        default "" label +:+ Js.dquote
                   else "" in
  let block := "* 변수 생성: " +:+ varName +:+ Js.nl +:+ definition +:+ Js.nl +:+ labelLine in
  let text := Js.join Js.nl
                (Js.splice_insert (Js.split_nl S) (insertIndexOf (Js.split_nl S) m "after")
                                  [""; block; ""]) in
  callTool_edit_do_file H
    (Some {| file_path := Some filePath; operation := Some "add_variable";
             params := Some params |}) w
  = (Ok (modifiedMessage text),
     set_files (<[resolvePath H filePath := text]>
                  (<[backupPathOf H filePath := S]> (files w))) w).
Proof.
  intros Hfile Hpath Hname Hdef Hmk Hm params labelLine block text.
  unfold callTool_edit_do_file, edit_do_file. simpl. rewrite Hpath. simpl.
  unfold try_catch, bind at 1. rewrite (createBackup_ok H w filePath S Hfile).
  unfold bind at 1, editSwitch. simpl. rewrite Hname, Hdef. simpl.
  unfold addVariable.
  assert (Hblock : "* 변수 생성: " +:+ varName +:+ Js.nl +:+ definition +:+ Js.nl +:+
                   match label with
                   | Some l => if Js.truthy l
                               then "label variable " +:+ varName +:+ " " +:+ Js.dquote +:+ l
                                    +:+ Js.dquote
                               else ""
                   | None => ""
                   end = block).
  { unfold block, labelLine. destruct label as [l|]; simpl; [| reflexivity].
    destruct (Js.truthy l); reflexivity. }
  rewrite Hblock.
  set (w1 := set_files (<[backupPathOf H filePath := S]> (files w)) w).
  assert (Hfile1 : files w1 !! resolvePath H filePath = Some S)
    by now apply backup_keeps_script.
  rewrite (insertSection_present H w1 filePath S Hfile1 "preprocessing" mk block None m Hmk Hm).
  simpl default. fold text.
  unfold bind, FileManager_readFile, Fs.readFile. simpl files.
  rewrite lookup_insert_eq. reflexivity.
Qed.

Lemma add_variable_reply_witness :
  let h := Posix.host Posix.unlaunchable in
  let w := Posix.disk [("/w/a.do", "* 변수 생성 및 전처리")] in
  let params := {| p_name := Some "age2"; p_definition := Some "generate age2 = age^2";
                   p_label := None; p_type := None; p_specification := None;
                   p_section := None; p_content := None; p_position := None |} in
  let labelLine := if Js.truthy_opt None
                   then "label variable " +:+ "age2" +:+ " " +:+ Js.dquote +:+
                        default "" None +:+ Js.dquote
                   else "" in
  let block := "* 변수 생성: " +:+ "age2" +:+ Js.nl +:+ "generate age2 = age^2" +:+ Js.nl +:+
               labelLine in
  let text := Js.join Js.nl
                (Js.splice_insert (Js.split_nl "* 변수 생성 및 전처리")
                   (insertIndexOf (Js.split_nl "* 변수 생성 및 전처리") 0 "after")
                   [""; block; ""]) in
  callTool_edit_do_file h
    (Some {| file_path := Some "a.do"; operation := Some "add_variable";
             params := Some params |}) w
  = (Ok (modifiedMessage text),
     set_files (<[resolvePath h "a.do" := text]>
                  (<[backupPathOf h "a.do" := "* 변수 생성 및 전처리"]> (files w))) w).
Proof.
  apply (add_variable_reply (Posix.host Posix.unlaunchable)
           (Posix.disk [("/w/a.do", "* 변수 생성 및 전처리")]) "a.do" "* 변수 생성 및 전처리"
           "age2" "generate age2 = age^2" None
           (Re.Pattern false
              (Re.Alt (Re.Seq (Re.Chr "*") (Re.Seq (Re.Star Re.space) (Re.lit "변수 생성")))
                      (Re.lit "전처리")) true) 0%nat).
  - vm_compute. reflexivity.
  - reflexivity.
  - reflexivity.
  - reflexivity.
  - reflexivity.
  - vm_compute. reflexivity.
Defined.

Example add_variable_without_label_ends_with_blank_lines :
  files (callTool_edit_do_file (Posix.host Posix.unlaunchable)
           (Some {| file_path := Some "a.do"; operation := Some "add_variable";
                    params := Some {| p_name := Some "age2";
                                      p_definition := Some "generate age2 = age^2";
                                      p_label := None; p_type := None;
                                      p_specification := None; p_section := None;
                                      p_content := None; p_position := None |} |})
           (Posix.disk [("/w/a.do", "* 변수 생성 및 전처리")])).2 !! "/w/a.do"
  = Some ("* 변수 생성 및 전처리" +:+ Js.nl +:+ Js.nl +:+ "* 변수 생성: age2" +:+ Js.nl +:+
          "generate age2 = age^2" +:+ Js.nl +:+ Js.nl).
Proof. vm_compute. reflexivity. Qed.

(** ** Writing and reading through the handler *)

Lemma write_do_file_store (H : Host) (w : world) (filePath content : string)
      (flag : option bool) :
  Js.truthy filePath = true -> Js.truthy content = true ->
  write_do_file H (Some (writeArgs (Some filePath) (Some content) flag)) w =
  (Ok ("파일이 저장되었습니다: " +:+ resolvePath H filePath),
   set_files
     (<[resolvePath H filePath := content]>
        (match files w !! resolvePath H filePath with
         | Some old => if default true flag
                       then <[backupPathOf H filePath := old]> (files w)
                       else files w
         | None => files w
         end)) w).
Proof.
  intros Hpath Hcontent. unfold write_do_file. simpl. rewrite Hpath, Hcontent. simpl.
  destruct (default true flag) eqn:Hflag.
  - unfold bind at 1, bind at 1, fileExists.
    destruct (files w !! resolvePath H filePath) as [old|] eqn:Hold.
    + unfold bind at 1. rewrite (createBackup_ok H w filePath old Hold). reflexivity.
    + reflexivity.
  - destruct (files w !! resolvePath H filePath); reflexivity.
Qed.

(** X16.  When [write_do_file] answers with the saved confirmation,
    whatever the backup flag and whether or not the file existed before,
    [read_do_file] of the same path then answers with the resolved path, a
    rule of 80 [=] and exactly the content written, and changes nothing.
    (A write the system refuses is not a confirmed write.) *)
Theorem write_then_read (H : Host) (w : world) (filePath content : string)
        (flag : option bool) :
  let written := write_do_file H (Some (writeArgs (Some filePath) (Some content) flag)) w in
  written.1 = Ok ("파일이 저장되었습니다: " +:+ resolvePath H filePath) ->
  read_do_file H (Some (writeArgs (Some filePath) None None)) written.2 =
    (Ok ("파일: " +:+ resolvePath H filePath +:+ Js.nl +:+ Js.repeat_str "=" 80 +:+ Js.nl +:+
         content),
     written.2).
Proof.
  intros written Hsaved.
  assert (Hpath : Js.truthy filePath = true).
  { destruct (Js.truthy filePath) eqn:Hp; [reflexivity |].
    unfold written, write_do_file in Hsaved. simpl in Hsaved. rewrite Hp in Hsaved.
    discriminate. }
  assert (Hcontent : Js.truthy content = true).
  { destruct (Js.truthy content) eqn:Hc; [reflexivity |].
    unfold written, write_do_file in Hsaved. simpl in Hsaved. rewrite Hpath, Hc in Hsaved.
    discriminate. }
  unfold written.
  rewrite (write_do_file_store H w filePath content flag Hpath Hcontent).
  unfold read_do_file. simpl. rewrite Hpath. simpl.
  unfold bind, FileManager_readFile, Fs.readFile. simpl files.
  rewrite lookup_insert_eq. reflexivity.
Qed.

Lemma write_then_read_witness :
  let h := Posix.host Posix.unlaunchable in
  let written := write_do_file h (Some (writeArgs (Some "a.do") (Some "describe") None))
                               (Posix.disk [("/w/a.do", "summarize")]) in
  read_do_file h (Some (writeArgs (Some "a.do") None None)) written.2 =
    (Ok ("파일: " +:+ resolvePath h "a.do" +:+ Js.nl +:+ Js.repeat_str "=" 80 +:+ Js.nl +:+
         "describe"),
     written.2).
Proof.
  apply (write_then_read (Posix.host Posix.unlaunchable)
           (Posix.disk [("/w/a.do", "summarize")]) "a.do" "describe" None).
  vm_compute. reflexivity.
Defined.

(** X17.  [write_do_file] refuses an absent or empty content, as it does an
    absent or empty path: it throws the missing-parameter error and writes
    nothing, so a file cannot be created empty or emptied through it. *)
Theorem write_refuses_empty (H : Host) (w : world) (filePath content : option string)
        (flag : option bool) :
  Js.truthy_opt filePath && Js.truthy_opt content = false ->
  write_do_file H (Some (writeArgs filePath content flag)) w
    = (Throw "file_path와 content가 필요합니다", w).
Proof.
  intros Hmissing. unfold write_do_file. simpl.
  destruct filePath as [p|], content as [c|]; simpl in *; try reflexivity.
  destruct (Js.truthy p), (Js.truthy c); simpl in *; try reflexivity. discriminate.
Qed.

Lemma write_refuses_empty_witness :
  write_do_file (Posix.host Posix.unlaunchable)
                (Some (writeArgs (Some "a.do") (Some "") None))
                (Posix.disk [("/w/a.do", "summarize")])
  = (Throw "file_path와 content가 필요합니다", Posix.disk [("/w/a.do", "summarize")]).
Proof.
  apply (write_refuses_empty (Posix.host Posix.unlaunchable)
           (Posix.disk [("/w/a.do", "summarize")]) (Some "a.do") (Some "") None).
  reflexivity.
Defined.

(** X18.  [write_do_file] makes a backup exactly when the target exists and
    the flag is not [false] (an absent flag counts as [true]): the backup
    path then holds the old content.  In every other case the write changes
    no path but the target. *)
Theorem write_backup_policy (H : Host) (w : world) (filePath content : string)
        (flag : option bool) :
  Js.truthy filePath = true -> Js.truthy content = true ->
  let after := (write_do_file H (Some (writeArgs (Some filePath) (Some content) flag)) w).2 in
  (forall old, files w !! resolvePath H filePath = Some old -> flag <> Some false ->
     files after = <[resolvePath H filePath := content]>
                     (<[backupPathOf H filePath := old]> (files w)) /\
     (backupPathOf H filePath <> resolvePath H filePath ->
      files after !! backupPathOf H filePath = Some old)) /\
  (files w !! resolvePath H filePath = None \/ flag = Some false ->
   files after = <[resolvePath H filePath := content]> (files w)).
Proof.
  intros Hpath Hcontent after. unfold after.
  rewrite (write_do_file_store H w filePath content flag Hpath Hcontent). simpl. split.
  - intros old Hold Hflag. rewrite Hold.
    assert (Hdefault : default true flag = true) by (destruct flag as [[]|]; [reflexivity | congruence | reflexivity]).
    rewrite Hdefault. split; [reflexivity |].
    intros Hne. rewrite lookup_insert_ne by congruence. apply lookup_insert_eq.
  - intros [Hnone | ->]; [now rewrite Hnone |].
    destruct (files w !! resolvePath H filePath); reflexivity.
Qed.

Lemma write_backup_policy_witness :
  let h := Posix.host Posix.unlaunchable in
  let after := (write_do_file h (Some (writeArgs (Some "a.do") (Some "describe") None))
                              (Posix.disk [("/w/a.do", "summarize")])).2 in
  files after !! "/w/.stata-backups/a.do.2024-01-02T03-04-05-678Z.bak" = Some "summarize".
Proof.
  apply (proj1 (write_backup_policy (Posix.host Posix.unlaunchable)
                  (Posix.disk [("/w/a.do", "summarize")]) "a.do" "describe" None
                  ltac:(reflexivity) ltac:(reflexivity)) "summarize").
  - vm_compute. reflexivity.
  - discriminate.
  - vm_compute. discriminate.
Defined.

(** ** The generated template *)

Lemma split_template_has (today description outputPath line : string) (H : Host) :
  In line (templateLines H today description outputPath) ->
  Js.split_nl line = [line] ->
  line ∈ Js.split_nl (template H today description outputPath).
Proof.
  intros Hin Hsingle. unfold template.
  replace (Js.join Js.nl (templateLines H today description outputPath) +:+ Js.nl)
    with (Js.join Js.nl (templateLines H today description outputPath) +:+ Js.nl +:+ "")
    by reflexivity.
  rewrite split_nl_app, split_nl_join by discriminate.
  apply list_elem_of_In, in_or_app. left.
  apply in_concat. exists [line]. split; [| now left].
  rewrite <- Hsingle. now apply in_map.
Qed.

(** X19.  A file made by [generateDoFile] has a line for the marker of each
    of the six registered sections, whatever the description and the output
    path are: an [insertSection] into it, for any registered section, any
    content and any position, succeeds. *)
Theorem generated_file_has_every_section (H : Host) (w : world)
        (today description outputPath content : string) (sn : SectionName)
        (position : option string) :
  let generated := generateDoFile H today description outputPath w in
  generated.1 = Ok outputPath /\
  templateMarkerLine sn ∈ Js.split_nl (template H today description outputPath) /\
  exists w', insertSection H outputPath (section_key sn) content position generated.2
             = (Ok tt, w').
Proof.
  cbv zeta.
  assert (Hline : templateMarkerLine sn ∈ Js.split_nl (template H today description outputPath)).
  { apply split_template_has; [| destruct sn; reflexivity].
    destruct sn; unfold templateLines, templateMarkerLine; simpl;
      repeat (try (left; reflexivity); right). }
  split; [reflexivity |]. split; [exact Hline |].
  destruct (registered_marker sn) as [mk Hmk].
  assert (Htest : Re.test mk (templateMarkerLine sn) = true).
  { destruct sn; injection Hmk as <-; vm_compute; reflexivity. }
  destruct (Js.findIndex (Re.test mk) (Js.split_nl (template H today description outputPath)))
    as [m|] eqn:Hm.
  - assert (Hfile : files (generateDoFile H today description outputPath w).2
                      !! resolvePath H outputPath
                    = Some (template H today description outputPath)).
    { unfold generateDoFile, bind, FileManager_writeFile, Fs.writeFile. simpl.
      apply lookup_insert_eq. }
    eexists.
    exact (insertSection_present H _ outputPath _ Hfile (section_key sn) mk content
             position m Hmk Hm).
  - apply findIndex_None with (x := templateMarkerLine sn) in Hm; [congruence | exact Hline].
Qed.

(** ** Running a selection through the handler *)

(** X20.  When the interpreter cannot be launched, [run_do_selected_lines]
    on a readable script and a valid range does not throw: the reply is the
    error text that names the failed launch, nothing is written to the
    console, and, the system not refusing the deletion, the ephemeral
    script that was written for the run is gone again. *)
Theorem run_selected_lines_without_interpreter (H : Host)
        (browse : option ToolArgs -> M string) (today : string) (w : world)
        (filePath content : string) (startLine endLine : Z) (msg : string) :
  Js.truthy filePath = true ->
  files w !! resolvePath H filePath = Some content ->
  (1 <= startLine /\ startLine <= endLine /\
   endLine <= Z.of_nat (length (Js.split_nl content)))%Z ->
  runOfSelection H w (resolvePath H filePath) content startLine endLine = SpawnError msg ->
  tempFilePathOf H (resolvePath H filePath) startLine endLine ∉ undeletable w ->
  let after := callTool H browse today "run_do_selected_lines"
                 (Some (rangeArgs (Some filePath) (Some startLine) (Some endLine))) w in
  after.1 = Ok ("오류 발생: " +:+ "선택된 라인 실행 실패: " +:+ "Stata 실행 실패: " +:+ msg) /\
  files after.2 !! tempFilePathOf H (resolvePath H filePath) startLine endLine = None /\
  console after.2 = console w.
Proof.
  intros Hpath Hfile Hrange Hrun Htemp after.
  set (temp := tempFilePathOf H (resolvePath H filePath) startLine endLine) in *.
  pose proof (executeSelectedLines_valid H w (resolvePath H filePath) content
                startLine endLine Hfile Hrange) as Hcall.
  cbv zeta in Hcall. fold temp in Hcall.
  set (script := prepareExecutableCode H _ (resolvePath H filePath) startLine endLine) in *.
  set (w1 := set_files (<[temp:=script]> (files w)) w) in *.
  pose proof (executeDoFile_world H temp w1) as Hworld.
  pose proof (executeDoFile_spawn_error H temp w1 msg Hrun) as Hres.
  change (interpreter H (stataPath H) (batchArgs H temp) (path_dirname H temp) (files w1))
    with (runOfSelection H w (resolvePath H filePath) content startLine endLine) in Hworld.
  rewrite Hrun in Hworld.
  destruct (executeDoFile H temp w1) as [r w2]. simpl in Hres, Hworld. subst r w2.
  assert (Hpresent : is_Some (<[temp:=script]> (files w) !! temp))
    by (rewrite lookup_insert_eq; eauto).
  match type of Hcall with _ = (_, (cleanup temp ?w2).2) =>
    destruct (cleanup_deletes temp w2 Hpresent Htemp)
      as [w3 [Hw3 [Hgone [_ [Hconsole _]]]]]
  end.
  rewrite Hw3 in Hcall. simpl in Hcall, Hconsole.
  unfold after, callTool, try_catch, run_do_selected_lines. simpl.
  rewrite Hpath. simpl. unfold bind. rewrite Hcall. simpl. auto.
Qed.

Lemma run_selected_lines_without_interpreter_witness :
  let h := Posix.host Posix.unlaunchable in
  let w := Posix.disk [("/w/a.do", "describe")] in
  let after := callTool h (fun _ => ret "") "2024. 1. 2." "run_do_selected_lines"
                 (Some (rangeArgs (Some "a.do") (Some 1%Z) (Some 1%Z))) w in
  after.1 = Ok ("오류 발생: " +:+ "선택된 라인 실행 실패: " +:+ "Stata 실행 실패: " +:+
                "spawn /Applications/Stata/StataBE.app/Contents/MacOS/StataBE ENOENT") /\
  files after.2 !! tempFilePathOf h (resolvePath h "a.do") 1 1 = None /\
  console after.2 = console w.
Proof.
  apply (run_selected_lines_without_interpreter (Posix.host Posix.unlaunchable)
           (fun _ => ret "") "2024. 1. 2." (Posix.disk [("/w/a.do", "describe")])
           "a.do" "describe" 1 1
           "spawn /Applications/Stata/StataBE.app/Contents/MacOS/StataBE ENOENT").
  - reflexivity.
  - vm_compute. reflexivity.
  - vm_compute. repeat split; discriminate.
  - reflexivity.
  - vm_compute. set_solver.
Defined.

(** X21.  The handler checks a request before it touches anything.  A name
    that is none of the seven tools is answered with the unknown-tool text;
    [read_do_file], [run_do_file] and [run_do_selected_lines] without a
    non-empty [file_path] with the missing-path text; [run_do_selected_lines]
    without both line numbers with the missing-lines text;
    [generate_do_template] without a non-empty description and output path
    with its text; [edit_do_file] without arguments with its text.  In each
    case the machine state is unchanged. *)
Theorem callTool_rejects_malformed_requests (H : Host)
        (browse : option ToolArgs -> M string) (today : string)
        (args : option ToolArgs) (w : world) :
  (forall name,
     name ∉ ["browse_do_files"; "read_do_file"; "write_do_file"; "edit_do_file";
             "generate_do_template"; "run_do_file"; "run_do_selected_lines"] ->
     callTool H browse today name args w
       = (Ok ("오류 발생: 알 수 없는 도구: " +:+ name), w)) /\
  (Js.truthy_opt (field args a_file_path) = false ->
   forall name, name ∈ ["read_do_file"; "run_do_file"; "run_do_selected_lines"] ->
     callTool H browse today name args w = (Ok "오류 발생: file_path가 필요합니다", w)) /\
  (Js.truthy_opt (field args a_file_path) = true ->
   field args a_start_line = None \/ field args a_end_line = None ->
   callTool H browse today "run_do_selected_lines" args w
     = (Ok "오류 발생: start_line과 end_line이 필요합니다", w)) /\
  (Js.truthy_opt (field args a_description) && Js.truthy_opt (field args a_output_path) = false ->
   callTool H browse today "generate_do_template" args w
     = (Ok "오류 발생: description과 output_path가 필요합니다", w)) /\
  (args = None ->
   callTool H browse today "edit_do_file" args w = (Ok "오류 발생: 매개변수가 필요합니다", w)).
Proof.
  split; [| split; [| split; [| split]]].
  - intros name Hname. unfold callTool, try_catch.
    rewrite !eqb_false_of_ne; [reflexivity | ..];
      intros ->; apply Hname; repeat (try apply list_elem_of_here; apply list_elem_of_further).
  - intros Hpath name Hname.
    repeat (apply elem_of_cons in Hname as [-> | Hname]); [| | | inversion Hname];
      unfold callTool, try_catch, read_do_file, run_do_file, run_do_selected_lines; simpl;
      destruct (field args a_file_path) as [p|]; simpl in *; try reflexivity;
      rewrite Hpath; reflexivity.
  - intros Hpath Hlines.
    unfold callTool, try_catch, run_do_selected_lines. simpl.
    destruct (field args a_file_path) as [p|]; simpl in *; [| discriminate].
    rewrite Hpath. simpl.
    destruct Hlines as [-> | ->]; [reflexivity |].
    destruct (field args a_start_line); reflexivity.
  - intros Hmissing. unfold callTool, try_catch, generate_do_template. simpl.
    destruct (field args a_description) as [d|], (field args a_output_path) as [o|];
      simpl in *; try reflexivity.
    destruct (Js.truthy d), (Js.truthy o); simpl in *; try reflexivity. discriminate.
  - intros ->. reflexivity.
Qed.

Lemma callTool_rejects_malformed_requests_witness :
  callTool (Posix.host Posix.unlaunchable) (fun _ => ret "") "2024. 1. 2." "delete_do_file"
           None (Posix.disk [("/w/a.do", "describe")])
  = (Ok ("오류 발생: 알 수 없는 도구: " +:+ "delete_do_file"),
     Posix.disk [("/w/a.do", "describe")]).
Proof.
  apply (proj1 (callTool_rejects_malformed_requests (Posix.host Posix.unlaunchable)
                  (fun _ => ret "") "2024. 1. 2." None
                  (Posix.disk [("/w/a.do", "describe")])) "delete_do_file").
  intros Hin. repeat (apply elem_of_cons in Hin as [Hin | Hin]; [discriminate |]). inversion Hin.
Defined.

(** ** The listing of do-files *)

Lemma endsWith_iff (suffix s : string) :
  endsWith suffix s = true <-> exists stem, s = stem +:+ suffix.
Proof.
  induction s as [|a s IH].
  - change (endsWith suffix "") with (String.eqb "" suffix || false).
    rewrite orb_false_r, String.eqb_eq. split.
    + intros <-. now exists "".
    + intros [stem Hs]. symmetry in Hs. apply app_eq_nil in Hs as [_ ->]. reflexivity.
  - change (endsWith suffix (String a s))
      with (String.eqb (String a s) suffix || endsWith suffix s).
    rewrite orb_true_iff, String.eqb_eq, IH. split.
    + intros [<- | [stem ->]]; [now exists "" | now exists (String a stem)].
    + intros [[|b stem] Hs].
      * left. now rewrite app_nil_l in Hs.
      * right. rewrite app_cons in Hs. injection Hs as _ ->. now exists stem.
Qed.

Lemma insertNewestFirst_perm (x : FileInfo) (sorted : list FileInfo) :
  insertNewestFirst x sorted ≡ₚ x :: sorted.
Proof.
  induction sorted as [|y rest IH]; simpl; [reflexivity |].
  destruct (f_modified x <? f_modified y)%Z; [| reflexivity].
  rewrite IH. apply Permutation_swap.
Qed.

Lemma sortNewestFirst_perm (infos : list FileInfo) : sortNewestFirst infos ≡ₚ infos.
Proof.
  induction infos as [|x infos IH]; simpl; [reflexivity |].
  now rewrite insertNewestFirst_perm, IH.
Qed.

Lemma insertNewestFirst_sorted (x : FileInfo) (sorted : list FileInfo) :
  StronglySorted newerOrSame sorted -> StronglySorted newerOrSame (insertNewestFirst x sorted).
Proof.
  induction sorted as [|y rest IH]; intros Hs; simpl.
  - repeat constructor.
  - apply StronglySorted_inv in Hs as [Hrest Hy].
    destruct (Z.ltb_spec (f_modified x) (f_modified y)).
    + constructor; [now apply IH |].
      rewrite Forall_forall. intros z Hz.
      rewrite (insertNewestFirst_perm x rest) in Hz.
      apply elem_of_cons in Hz as [-> | Hz]; [unfold newerOrSame; lia |].
      rewrite Forall_forall in Hy. now apply Hy.
    + constructor; [now constructor |]. constructor; [unfold newerOrSame; lia |].
      rewrite Forall_forall in Hy |- *. intros z Hz. specialize (Hy z Hz).
      unfold newerOrSame in *. lia.
Qed.

Lemma collectDoFiles_spec (H : Host) (searchDir : string) (entries : list DirEntry)
      (info : FileInfo) :
  info ∈ collectDoFiles H searchDir entries <->
  exists entry, entry ∈ entries /\ d_isFile entry = true /\
                endsWith ".do" (d_name entry) = true /\ info = infoOf H searchDir entry.
Proof.
  induction entries as [|e rest IH]; simpl.
  - split; [intros Hin; inversion Hin | intros [entry [Hin _]]; inversion Hin].
  - destruct (d_isFile e && endsWith ".do" (d_name e)) eqn:He.
    + apply andb_true_iff in He as [Hfile Hdo]. rewrite elem_of_cons, IH. split.
      * intros [-> | [entry [Hin Hrest]]].
        -- exists e. split; [apply list_elem_of_here | auto].
        -- exists entry. split; [now apply list_elem_of_further | exact Hrest].
      * intros [entry [Hin Hrest]]. apply elem_of_cons in Hin as [-> | Hin].
        -- left. apply Hrest.
        -- right. eauto.
    + rewrite IH. split.
      * intros [entry [Hin Hrest]]. exists entry. split; [now apply list_elem_of_further | exact Hrest].
      * intros [entry [Hin [Hfile [Hdo Hinfo]]]]. apply elem_of_cons in Hin as [-> | Hin].
        -- rewrite Hfile, Hdo in He. discriminate.
        -- eauto.
Qed.

(** X22.  The listing built from the entries of a directory holds exactly
    the regular files whose name ends in [.do], each once per entry, with
    the name, size and time of its entry and its path under the directory
    searched; it is ordered newest first. *)
Theorem listDoFiles_listing (H : Host) (directory : option string) (entries : list DirEntry) :
  let listing := listDoFiles H directory entries in
  StronglySorted newerOrSame listing /\
  listing ≡ₚ collectDoFiles H (searchDirOf H directory) entries /\
  (forall info,
     info ∈ listing <->
     exists entry stem,
       entry ∈ entries /\ d_isFile entry = true /\ d_name entry = stem +:+ ".do" /\
       info = infoOf H (searchDirOf H directory) entry).
Proof.
  cbv zeta. unfold listDoFiles. split; [| split].
  - generalize (collectDoFiles H (searchDirOf H directory) entries). intros infos.
    induction infos as [|x infos IH]; simpl; [constructor | now apply insertNewestFirst_sorted].
  - apply sortNewestFirst_perm.
  - intros info. rewrite (sortNewestFirst_perm _), collectDoFiles_spec. split.
    + intros [entry [Hin [Hfile [Hdo Hinfo]]]]. apply endsWith_iff in Hdo as [stem Hstem].
      exists entry, stem. auto.
    + intros [entry [stem [Hin [Hfile [Hstem Hinfo]]]]]. exists entry.
      repeat split; auto. apply endsWith_iff. eauto.
Qed.

Example listing_newest_first :
  map f_name
    (listDoFiles (Posix.host Posix.unlaunchable) None
       [ {| d_name := "old.do"; d_isFile := true; d_size := 10; d_mtime := 100 |};
         {| d_name := "notes.txt"; d_isFile := true; d_size := 10; d_mtime := 500 |};
         {| d_name := "archive.do"; d_isFile := false; d_size := 0; d_mtime := 400 |};
         {| d_name := "new.do"; d_isFile := true; d_size := 10; d_mtime := 300 |};
         {| d_name := "twin.do"; d_isFile := true; d_size := 10; d_mtime := 100 |} ])
  = ["new.do"; "old.do"; "twin.do"].
Proof. vm_compute. reflexivity. Qed.

(** ** Unknown section names *)

(** X23.  On a readable script, a section name that is none of the six
    registered ones (and no key every object inherits) makes [insertSection]
    throw the unknown-section error before it looks for any marker; nothing
    is written. *)
Theorem unknown_section_rejected (H : Host) (w : world) (filePath S name content : string)
        (position : option string) :
  files w !! resolvePath H filePath = Some S ->
  name ∉ ["setup"; "data"; "preprocessing"; "descriptive"; "analysis"; "output"] ->
  name ∉ objectPrototypeKeys ->
  insertSection H filePath name content position w
    = (Throw ("알 수 없는 섹션: " +:+ name), w).
Proof.
  intros Hfile Hname _.
  unfold insertSection, bind, FileManager_readFile, Fs.readFile. rewrite Hfile.
  assert (Hassoc : assoc name sectionMarkers = None).
  { unfold sectionMarkers, assoc.
    rewrite !(String.eqb_sym _ name), !eqb_false_of_ne; [reflexivity | ..];
      intros ->; apply Hname; repeat (try apply list_elem_of_here; apply list_elem_of_further). }
  now rewrite Hassoc.
Qed.

Lemma unknown_section_rejected_witness :
  insertSection (Posix.host Posix.unlaunchable) "a.do" "results" "regress y x" None
                (Posix.disk [("/w/a.do", "* 주요 분석")])
  = (Throw ("알 수 없는 섹션: " +:+ "results"), Posix.disk [("/w/a.do", "* 주요 분석")]).
Proof.
  apply (unknown_section_rejected (Posix.host Posix.unlaunchable)
           (Posix.disk [("/w/a.do", "* 주요 분석")]) "a.do" "* 주요 분석" "results"
           "regress y x" None).
  - vm_compute. reflexivity.
  - intros Hin. repeat (apply elem_of_cons in Hin as [Hin | Hin]; [discriminate |]). inversion Hin.
  - intros Hin. repeat (apply elem_of_cons in Hin as [Hin | Hin]; [discriminate |]). inversion Hin.
Defined.

(** ** Line ranges: what the call extracts (C3) *)

(** C3.  For a readable script of [N] lines and a range
    [1 <= startLine <= endLine <= N], [executeSelectedLines] runs the
    ephemeral script built from extracted lines of which there are exactly
    [endLine - startLine + 1]; the [k]-th of them is line number
    [startLine + k] of the script (counting from 1); in the body of the
    ephemeral script each stands under the provenance comment carrying that
    number; and the lines before the range, the extracted lines and the
    lines after it, joined, are the script text. *)
Theorem extractRange_exact (H : Host) (w : world) (filePath content : string)
        (startLine endLine : Z) :
  files w !! filePath = Some content ->
  (1 <= startLine)%Z -> (startLine <= endLine)%Z ->
  (endLine <= Z.of_nat (length (Js.split_nl content)))%Z ->
  exists selectedLines : list string,
    executeSelectedLines H filePath startLine endLine w =
      (let temp := tempFilePathOf H filePath startLine endLine in
       let '(r, w2) :=
         executeDoFile H temp
           (set_files
              (<[temp := header H filePath startLine endLine +:+ setupCode selectedLines +:+
                         processedLines selectedLines startLine +:+ trailer]> (files w)) w) in
       (match r with
        | Ok res => Ok (enhance filePath startLine endLine res)
        | Throw e => Throw ("선택된 라인 실행 실패: " +:+ e)
        end, (cleanup temp w2).2)) /\
    Z.of_nat (length selectedLines) = (endLine - startLine + 1)%Z /\
    (forall (k : nat) (line : string),
        selectedLines !! k = Some line ->
        Js.split_nl content !! (Z.to_nat (startLine + Z.of_nat k) - 1)%nat = Some line) /\
    Js.split_nl (processedLines selectedLines startLine) = taggedLines startLine selectedLines /\
    Js.join Js.nl (take (Z.to_nat (startLine - 1)) (Js.split_nl content) ++ selectedLines
                   ++ drop (Z.to_nat endLine) (Js.split_nl content))%list = content.
Proof.
  intros Hfile H1 H2 H3. set (lines := Js.split_nl content) in *.
  exists (Js.slice lines (startLine - 1) endLine).
  assert (Hlen : Z.of_nat (length (Js.slice lines (startLine - 1) endLine))
                 = (endLine - startLine + 1)%Z)
    by (rewrite slice_length by lia; lia).
  split; [| split; [exact Hlen | split; [| split]]].
  - pose proof (executeSelectedLines_valid H w filePath content startLine endLine Hfile
                  (conj H1 (conj H2 H3))) as Hcall.
    exact Hcall.
  - intros k line Hk. apply slice_lookup in Hk; [| lia ..].
    replace (Z.to_nat (startLine + Z.of_nat k) - 1)%nat
      with (Z.to_nat (startLine - 1) + k)%nat by lia.
    exact Hk.
  - unfold processedLines, taggedLines. rewrite split_nl_join.
    + apply concat_split_imap. intros k x Hx. apply split_processedLine.
      apply (split_nl_single content). apply list_elem_of_lookup in Hx as [j Hj].
      apply slice_lookup in Hj; [| lia ..]. apply list_elem_of_lookup. eauto.
    + destruct (Js.slice lines (startLine - 1) endLine); [simpl in Hlen; lia | discriminate].
  - rewrite slice_partition by lia. apply join_split_nl.
Qed.

Lemma extractRange_exact_witness :
  let h := Posix.host (Posix.writes_log 0 "ran fine") in
  let content := "clear all" +:+ Js.nl +:+ "use data" +:+ Js.nl +:+ "summarize" +:+ Js.nl +:+ "exit" in
  let w := Posix.disk [("/w/a.do", content)] in
  exists selectedLines : list string,
    executeSelectedLines h "/w/a.do" 2 3 w =
      (let temp := tempFilePathOf h "/w/a.do" 2 3 in
       let '(r, w2) :=
         executeDoFile h temp
           (set_files
              (<[temp := header h "/w/a.do" 2 3 +:+ setupCode selectedLines +:+
                         processedLines selectedLines 2 +:+ trailer]> (files w)) w) in
       (match r with
        | Ok res => Ok (enhance "/w/a.do" 2 3 res)
        | Throw e => Throw ("선택된 라인 실행 실패: " +:+ e)
        end, (cleanup temp w2).2)) /\
    Z.of_nat (length selectedLines) = (3 - 2 + 1)%Z /\
    (forall (k : nat) (line : string),
        selectedLines !! k = Some line ->
        Js.split_nl content !! (Z.to_nat (2 + Z.of_nat k) - 1)%nat = Some line) /\
    Js.split_nl (processedLines selectedLines 2) = taggedLines 2 selectedLines /\
    Js.join Js.nl (take (Z.to_nat (2 - 1)) (Js.split_nl content) ++ selectedLines
                   ++ drop (Z.to_nat 3) (Js.split_nl content))%list = content.
Proof.
  apply (extractRange_exact (Posix.host (Posix.writes_log 0 "ran fine"))
           (Posix.disk [("/w/a.do", "clear all" +:+ Js.nl +:+ "use data" +:+ Js.nl +:+
                                    "summarize" +:+ Js.nl +:+ "exit")])
           "/w/a.do"
           ("clear all" +:+ Js.nl +:+ "use data" +:+ Js.nl +:+ "summarize" +:+ Js.nl +:+ "exit")
           2 3).
  - vm_compute. reflexivity.
  - lia.
  - lia.
  - simpl. lia.
Defined.

Example extractRange_lines_2_to_3 :
  Js.slice (Js.split_nl ("clear all" +:+ Js.nl +:+ "use data" +:+ Js.nl +:+ "summarize" +:+
                         Js.nl +:+ "exit")) (2 - 1) 3
  = ["use data"; "summarize"].
Proof. reflexivity. Qed.
